(** * Resilience patterns: backoff strategies and the retry decorator

    A shallow embedding of [resilience/backoff.py] and [resilience/retry.py].

    - Python numbers ([int | float]) are a tagged union; a finite float is
      represented by the rational it denotes, which is exact for everything the
      code does with one (comparison and selection by [min] / [max]).  NaN and
      the infinities are outside the model.
    - A generator is a frame (where the body is suspended) stepped by [next]
      over the fields of the object it closes over; the fields are a store
      that is threaded through, so two generators of one strategy instance see
      each other's writes.
    - The retry loop is an iteration function run with fuel; the events it
      performs (drawing a wait, calling the operation, sleeping) are recorded
      in a trace. *)

From Stdlib Require Import ZArith QArith String DecimalString Bool List Lia Lqa.
Import ListNotations.

Open Scope Z_scope.

(** ** Python numbers *)

Inductive number : Type :=
| PyInt (i : Z)
| PyFloat (x : Q).

Definition to_Q (a : number) : Q :=
  match a with
  | PyInt i => inject_Z i
  | PyFloat x => x
  end.

(** [a < b] and [a > b]; Python compares an int with a float exactly. *)
Definition py_lt (a b : number) : bool := negb (Qle_bool (to_Q b) (to_Q a)).
Definition py_gt (a b : number) : bool := py_lt b a.

(** The builtins [min(a, b)] and [max(a, b)]: the first argument is kept
    unless the second is strictly smaller (resp. larger). *)
Definition py_min (a b : number) : number := if py_lt b a then b else a.
Definition py_max (a b : number) : number := if py_gt b a then b else a.

(** Numeric order and equality ([<=] and [==] of Python). *)
Definition num_le (a b : number) : Prop := (to_Q a <= to_Q b)%Q.
Definition num_lt (a b : number) : Prop := (to_Q a < to_Q b)%Q.
Definition num_eq (a b : number) : Prop := (to_Q a == to_Q b)%Q.

Declare Scope num_scope.
Delimit Scope num_scope with num.
Infix "<=" := num_le : num_scope.
Infix "<" := num_lt : num_scope.
Infix "==" := num_eq (at level 70, no associativity) : num_scope.

(** ** Exceptions *)

(** The part of the builtin hierarchy the code and its tests touch, and
    user-defined classes with one base. *)
Inductive exc_class : Type :=
| BaseException
| Exception
| KeyboardInterrupt
| SystemExit
| ArithmeticError
| ZeroDivisionError
| OverflowError
| OSError
| FileNotFoundError
| TypeError
| ValueError
| UserDefined (name : string) (base : exc_class).

Definition exc_class_eq_dec : forall c d : exc_class, {c = d} + {c <> d}.
Proof. decide equality. apply string_dec. Defined.

Definition exc_class_eqb (c d : exc_class) : bool :=
  if exc_class_eq_dec c d then true else false.

(** Method resolution order: the class followed by its ancestors. *)
Fixpoint mro (c : exc_class) : list exc_class :=
  match c with
  | BaseException => [BaseException]
  | Exception => [Exception; BaseException]
  | KeyboardInterrupt => [KeyboardInterrupt; BaseException]
  | SystemExit => [SystemExit; BaseException]
  | ArithmeticError => [ArithmeticError; Exception; BaseException]
  | ZeroDivisionError =>
      [ZeroDivisionError; ArithmeticError; Exception; BaseException]
  | OverflowError => [OverflowError; ArithmeticError; Exception; BaseException]
  | OSError => [OSError; Exception; BaseException]
  | FileNotFoundError => [FileNotFoundError; OSError; Exception; BaseException]
  | TypeError => [TypeError; Exception; BaseException]
  | ValueError => [ValueError; Exception; BaseException]
  | UserDefined _ base => c :: mro base
  end.

Definition issubclass (c d : exc_class) : bool :=
  existsb (exc_class_eqb d) (mro c).

(** An exception object: its class and its message. *)
Record exc : Type := { exc_type : exc_class; exc_args : string }.

(** [isinstance(e, classes)], which is how an [except] clause with a tuple of
    classes matches. *)
Definition isinstance (e : exc) (classes : list exc_class) : bool :=
  existsb (issubclass (exc_type e)) classes.

(** [a << b]: defined on integers with a non-negative shift count only. *)
Definition py_lshift (a b : number) : exc + number :=
  match a, b with
  | PyInt i, PyInt n =>
      if n <? 0
      then inl {| exc_type := ValueError; exc_args := "negative shift count" |}
      else inr (PyInt (Z.shiftl i n))
  | PyFloat _, PyInt _ =>
      inl {| exc_type := TypeError;
             exc_args := "unsupported operand type(s) for <<: 'float' and 'int'" |}
  | PyInt _, PyFloat _ =>
      inl {| exc_type := TypeError;
             exc_args := "unsupported operand type(s) for <<: 'int' and 'float'" |}
  | PyFloat _, PyFloat _ =>
      inl {| exc_type := TypeError;
             exc_args := "unsupported operand type(s) for <<: 'float' and 'float'" |}
  end.

(** ** The BackoffStrategy interface *)

(** What one [next()] on a generator gives. *)
Inductive gen_step : Type :=
| Yield (w : number)
| Exhausted
| GenRaise (e : exc).

(** A strategy class: [Obj] are the fields of an instance, [Gen] is a generator
    frame, [call] is [__call__] (it returns a new iterator) and [next] resumes
    a frame against the instance it closes over. *)
Record BackoffStrategy : Type := {
  Obj : Type;
  Gen : Type;
  call : Obj -> Gen * Obj;
  next : Gen -> Obj -> gen_step * Gen * Obj
}.

(** The first [n] steps of a frame. *)
Fixpoint draws (B : BackoffStrategy) (n : nat) (g : Gen B) (o : Obj B)
  : list gen_step :=
  match n with
  | O => []
  | S n' =>
      let '(st, g', o') := next B g o in
      st :: draws B n' g' o'
  end.

(** [itertools.islice(strategy(), n)] up to the first step that is not a
    value, with the frame and the instance afterwards. *)
Fixpoint islice (B : BackoffStrategy) (n : nat) (g : Gen B) (o : Obj B)
  : list number * Gen B * Obj B :=
  match n with
  | O => ([], g, o)
  | S n' =>
      match next B g o with
      | (Yield w, g', o') =>
          let '(ws, g'', o'') := islice B n' g' o' in (w :: ws, g'', o'')
      | (_, g', o') => ([], g', o')
      end
  end.

(** ** ExponentialBackoff *)

Module ExponentialBackoff.

Record t : Type := {
  base : number;
  min_wait_seconds : number;
  max_wait_seconds : number;
  counter : Z
}.

(** [__init__], with its keyword defaults spelled out by [default]. *)
Definition init (base min_wait_seconds max_wait_seconds : number) : t :=
  {| base := base;
     min_wait_seconds := min_wait_seconds;
     max_wait_seconds := max_wait_seconds;
     counter := 0 |}.

Definition default : t := init (PyInt 1) (PyInt 0) (PyInt 30).

Definition set_counter (self : t) (c : Z) : t :=
  {| base := base self;
     min_wait_seconds := min_wait_seconds self;
     max_wait_seconds := max_wait_seconds self;
     counter := c |}.

(** Where the body of [__call__] is suspended. *)
Inductive frame : Type :=
| NotStarted
| AtYield
| Finished.

(** The two lines of the loop body up to the [yield]. *)
Definition produce (self : t) : exc + number :=
  match py_lshift (base self) (PyInt (counter self)) with
  | inl e => inl e
  | inr shifted =>
      let upper_limit := py_min shifted (max_wait_seconds self) in
      inr (py_max (min_wait_seconds self) upper_limit)
  end.

Definition run_to_yield (self : t) : gen_step * frame * t :=
  match produce self with
  | inl e => (GenRaise e, Finished, self)
  | inr w => (Yield w, AtYield, self)
  end.

(** Resuming at the [yield] first executes [self.counter = self.counter + 1]. *)
Definition next (f : frame) (self : t) : gen_step * frame * t :=
  match f with
  | NotStarted => run_to_yield self
  | AtYield => run_to_yield (set_counter self (counter self + 1))
  | Finished => (Exhausted, Finished, self)
  end.

Definition call (self : t) : frame * t := (NotStarted, self).

Definition class : BackoffStrategy := Build_BackoffStrategy t frame call next.

(** The formula of the specification, [max(minWait, min(raw, maxWait))]. *)
Definition clamp (raw min_wait max_wait : number) : number :=
  py_max min_wait (py_min raw max_wait).

End ExponentialBackoff.

(** ** ExponentialBackoffWithJitter *)

Module ExponentialBackoffWithJitter.
Section WithRandomSource.

(** The hidden state of the random source behind [random_number_gen]. *)
Variable Rand : Type.

Record t : Type := {
  base : number;
  exponential_backoff : ExponentialBackoff.t;
  min_wait_seconds : number;
  random_number_gen : Rand -> number -> number -> number * Rand;
  counter : Z;
  rand : Rand
}.

Definition init (base min_wait_seconds max_wait_seconds : number)
    (random_number_gen : Rand -> number -> number -> number * Rand)
    (seed : Rand) : t :=
  {| base := base;
     exponential_backoff :=
       ExponentialBackoff.init base min_wait_seconds max_wait_seconds;
     min_wait_seconds := min_wait_seconds;
     random_number_gen := random_number_gen;
     counter := 0;
     rand := seed |}.

Definition update (self : t) (eb : ExponentialBackoff.t) (r : Rand) : t :=
  {| base := base self;
     exponential_backoff := eb;
     min_wait_seconds := min_wait_seconds self;
     random_number_gen := random_number_gen self;
     counter := counter self;
     rand := r |}.

(** The frame of [__call__]: before the [for] statement, inside it (holding
    the inner iterator), or returned. *)
Inductive frame : Type :=
| NotStarted
| InLoop (inner : ExponentialBackoff.frame)
| Finished.

(** One turn of [for wait_time in ...], up to the [yield]. *)
Definition loop_turn (inner : ExponentialBackoff.frame) (self : t)
  : gen_step * frame * t :=
  match ExponentialBackoff.next inner (exponential_backoff self) with
  | (Yield wait_time, inner', eb') =>
      let '(random_wait, r') :=
        random_number_gen self (rand self) (PyInt 0) wait_time in
      (Yield (py_max (min_wait_seconds self) random_wait),
       InLoop inner', update self eb' r')
  | (Exhausted, _, eb') => (Exhausted, Finished, update self eb' (rand self))
  | (GenRaise e, _, eb') => (GenRaise e, Finished, update self eb' (rand self))
  end.

Definition next (f : frame) (self : t) : gen_step * frame * t :=
  match f with
  | NotStarted =>
      let '(inner, eb) := ExponentialBackoff.call (exponential_backoff self) in
      loop_turn inner (update self eb (rand self))
  | InLoop inner => loop_turn inner self
  | Finished => (Exhausted, Finished, self)
  end.

Definition call (self : t) : frame * t := (NotStarted, self).

Definition class : BackoffStrategy := Build_BackoffStrategy t frame call next.

(** The frame of the held [ExponentialBackoff] iterator that [next] on [f]
    resumes, and what that iterator gives next. *)
Definition inner_frame (f : frame) : ExponentialBackoff.frame :=
  match f with
  | NotStarted => ExponentialBackoff.NotStarted
  | InLoop inner => inner
  | Finished => ExponentialBackoff.Finished
  end.

Definition underlying (f : frame) (self : t) : gen_step :=
  fst (fst (ExponentialBackoff.next (inner_frame f) (exponential_backoff self))).

(** The floor of the instance is the floor of the strategy it holds, as
    [__init__] sets them. *)
Definition same_floor (self : t) : Prop :=
  min_wait_seconds self
  = ExponentialBackoff.min_wait_seconds (exponential_backoff self).

End WithRandomSource.
End ExponentialBackoffWithJitter.


(** ** RetryOnException *)

(** What a call of the wrapped function does: it returns or it raises. *)
Inductive op_result (R : Type) : Type :=
| Returns (r : R)
| Raises (e : exc).

Arguments Returns {R} r.
Arguments Raises {R} e.

(** [format(wait, ".2f")], which the f-string of the second [logger.debug]
    line evaluates before the sleep: an int is converted to a float first, and
    that raises for an int that rounds beyond the largest float; a float
    formats. *)
Definition float_limit : Z := 2 ^ 1024 - 2 ^ 970.

Definition format_2f (wait : number) : exc + unit :=
  match wait with
  | PyInt i =>
      if Z.abs i <? float_limit then inr tt
      else inl {| exc_type := OverflowError;
                  exc_args := "int too large to convert to float" |}
  | PyFloat _ => inr tt
  end.

(** [time.sleep(secs)] first converts the length to the nanosecond count of
    the clock, a signed 64-bit integer, and raises [OverflowError] when it
    does not fit; it then rejects a negative length.  An int fits when its
    product with [10^9] does.  A float is multiplied by [1e9] and rounded to
    the nearest float, which is below [2^63] when the exact product is below
    [2^63 - 512] and at least [-2^63] when the exact product is at least
    [-(2^63 + 1024)]. *)
Definition clock_limit_seconds : Z := 9223372036.

Definition fits_clock (secs : number) : bool :=
  match secs with
  | PyInt i => (- clock_limit_seconds <=? i) && (i <=? clock_limit_seconds)
  | PyFloat x =>
      Qle_bool (- (9223372036854776832 # 1)) (x * (1000000000 # 1))
      && negb (Qle_bool (9223372036854775296 # 1) (x * (1000000000 # 1)))
  end.

Definition time_sleep (secs : number) : exc + unit :=
  if fits_clock secs then
    if py_lt secs (PyInt 0)
    then inl {| exc_type := ValueError;
                exc_args := "sleep length must be non-negative" |}
    else inr tt
  else inl {| exc_type := OverflowError;
              exc_args := "timestamp too large to convert to C _PyTime_t" |}.

(** The frame and the instance after the first [n] steps. *)
Fixpoint advance (B : BackoffStrategy) (n : nat) (g : Gen B) (o : Obj B)
  : Gen B * Obj B :=
  match n with
  | O => (g, o)
  | S n' =>
      let '(_, g', o') := next B g o in
      advance B n' g' o'
  end.

Module RetryOnException.
Section Decorator.

(** The class of the injected strategy. *)
Variable B : BackoffStrategy.

Record t : Type := {
  max_retries : Z;
  retry_on_exceptions : list exc_class;
  backoff_strategy : Obj B
}.

(** [__init__] with a strategy given; [None] and the empty list are both
    falsy, and both select [(Exception,)]. *)
Definition init (max_retries : Z)
    (retry_on_exceptions : option (list exc_class))
    (backoff_strategy : Obj B) : t :=
  {| max_retries := max_retries;
     retry_on_exceptions :=
       match retry_on_exceptions with
       | Some (c :: cs) => c :: cs
       | Some [] | None => [Exception]
       end;
     backoff_strategy := backoff_strategy |}.

(** The decorated function: a state [S] it reads and writes, results [R]. *)
Variables S R : Type.
Variable func : S -> op_result R * S.

(** The outcomes of the first [n] consecutive calls of [func], and the state
    they leave. *)
Fixpoint attempts (n : nat) (s : S) : list (op_result R) :=
  match n with
  | O => []
  | Datatypes.S n' => let '(res, s') := func s in res :: attempts n' s'
  end.

Fixpoint state_after (n : nat) (s : S) : S :=
  match n with
  | O => s
  | Datatypes.S n' => let '(_, s') := func s in state_after n' s'
  end.

(** What [wrapped] does, in order. *)
Inductive event : Type :=
| Draw (st : gen_step)
| Attempt (res : op_result R)
| Sleep (w : number).

(** The ways out of [wrapped]. *)
Inductive exit : Type :=
| Returned (r : R)
| Propagated (e : exc)
| Reraised (e : exc)
| LogFailed (e : exc)
| SleepFailed (e : exc)
| StrategyFailed (e : exc)
| CriticalBug.

Definition critical_bug : exc :=
  {| exc_type := Exception;
     exc_args :=
       "Critical bug in RetryOnException. This line should never be executed." |}.

(** What the caller of [wrapped] observes. *)
Definition outcome (x : exit) : op_result R :=
  match x with
  | Returned r => Returns r
  | Propagated e | Reraised e | LogFailed e | SleepFailed e
  | StrategyFailed e => Raises e
  | CriticalBug => Raises critical_bug
  end.

(** The ways out that hand the caller what the operation gave. *)
Definition from_operation (x : exit) : bool :=
  match x with
  | Returned _ | Propagated _ | Reraised _ => true
  | LogFailed _ | SleepFailed _ | StrategyFailed _ | CriticalBug => false
  end.

Record loop_state : Type := {
  i : Z;
  gen : Gen B;
  strategy : Obj B;
  world : S;
  trace : list event
}.

Record result : Type := {
  how : exit;
  final_strategy : Obj B;
  final_world : S;
  events : list event
}.

(** One iteration of [for i, wait in enumerate(self.backoff_strategy())]: the
    wait is drawn at the head of the iteration, before the call.  Of the two
    [logger.debug] lines the first has nothing to evaluate; the second
    formats [wait] with [.2f] before the sleep, and that can raise. *)
Definition iteration (self : t) (st : loop_state) : loop_state + result :=
  match next B (gen st) (strategy st) with
  | (Exhausted, _, o') =>
      inr {| how := CriticalBug; final_strategy := o';
             final_world := world st;
             events := trace st ++ [Draw Exhausted] |}
  | (GenRaise e, _, o') =>
      inr {| how := StrategyFailed e; final_strategy := o';
             final_world := world st;
             events := trace st ++ [Draw (GenRaise e)] |}
  | (Yield wait, g', o') =>
      let attempt_number := i st + 1 in
      match func (world st) with
      | (Returns r, s') =>
          inr {| how := Returned r; final_strategy := o'; final_world := s';
                 events := trace st ++ [Draw (Yield wait); Attempt (Returns r)] |}
      | (Raises e, s') =>
          if isinstance e (retry_on_exceptions self) then
            if attempt_number =? max_retries self then
              inr {| how := Reraised e; final_strategy := o'; final_world := s';
                     events :=
                       trace st ++ [Draw (Yield wait); Attempt (Raises e)] |}
            else
              match format_2f wait with
              | inl err =>
                  inr {| how := LogFailed err; final_strategy := o';
                         final_world := s';
                         events :=
                           trace st ++ [Draw (Yield wait); Attempt (Raises e)] |}
              | inr _ =>
                  match time_sleep wait with
                  | inl err =>
                      inr {| how := SleepFailed err; final_strategy := o';
                             final_world := s';
                             events :=
                               trace st
                               ++ [Draw (Yield wait); Attempt (Raises e)] |}
                  | inr _ =>
                      inl {| i := i st + 1; gen := g'; strategy := o';
                             world := s';
                             trace :=
                               trace st
                               ++ [Draw (Yield wait); Attempt (Raises e);
                                   Sleep wait] |}
                  end
              end
          else
            inr {| how := Propagated e; final_strategy := o'; final_world := s';
                   events := trace st ++ [Draw (Yield wait); Attempt (Raises e)] |}
      end
  end.

(** [n] iterations, unless the loop is left earlier. *)
Fixpoint iterate (self : t) (n : nat) (st : loop_state) : loop_state + result :=
  match n with
  | O => inl st
  | Datatypes.S n' =>
      match iteration self st with
      | inl st' => iterate self n' st'
      | inr r => inr r
      end
  end.

(** The state in which the loop is entered. *)
Definition start (self : t) (s : S) : loop_state :=
  let '(g, o) := call B (backoff_strategy self) in
  {| i := 0; gen := g; strategy := o; world := s; trace := [] |}.

(** One call of [wrapped], run for at most [fuel] iterations; [None] when the
    loop is still running after them. *)
Definition wrapped (self : t) (s : S) (fuel : nat) : option result :=
  match iterate self fuel (start self s) with
  | inr r => Some r
  | inl _ => None
  end.

(** Counting in a trace. *)
Definition calls (tr : list event) : nat :=
  length (filter (fun ev => match ev with Attempt _ => true | _ => false end) tr).

Fixpoint sleeps (tr : list event) : list number :=
  match tr with
  | [] => []
  | Sleep w :: tr' => w :: sleeps tr'
  | _ :: tr' => sleeps tr'
  end.

(** The events of failed attempts that are retried: wait [w] is drawn, the
    call raises [e], the loop sleeps [w]. *)
Fixpoint retry_events (ws : list number) (es : list exc) : list event :=
  match ws, es with
  | w :: ws', e :: es' =>
      Draw (Yield w) :: Attempt (Raises e) :: Sleep w :: retry_events ws' es'
  | _, _ => []
  end.

Definition retryable (self : t) (e : exc) : Prop :=
  isinstance e (retry_on_exceptions self) = true.

(** The state of the loop after [n] attempts that were all retried. *)
Definition retried (st : loop_state) (n : nat) (ws : list number)
    (es : list exc) : loop_state :=
  {| i := i st + Z.of_nat n;
     gen := fst (advance B n (gen st) (strategy st));
     strategy := snd (advance B n (gen st) (strategy st));
     world := state_after n (world st);
     trace := trace st ++ retry_events ws es |}.

End Decorator.

Arguments Returned {R} r.
Arguments Propagated {R} e.
Arguments Reraised {R} e.
Arguments LogFailed {R} e.
Arguments SleepFailed {R} e.
Arguments StrategyFailed {R} e.
Arguments CriticalBug {R}.
Arguments Draw {R} st.
Arguments Attempt {R} res.
Arguments Sleep {R} w.

(** [max_retries] when the argument is left out. *)
Definition default_max_retries : Z := 5.

(** [__init__] with [backoff_strategy=None]: the strategy is
    [ExponentialBackoffWithJitter()], whose random source is [random.uniform];
    that function and the state of the module's generator are parameters. *)
Definition init_default_strategy (Rand : Type)
    (random_uniform : Rand -> number -> number -> number * Rand) (seed : Rand)
    (max_retries : Z) (retry_on_exceptions : option (list exc_class))
  : t (ExponentialBackoffWithJitter.class Rand) :=
  init (ExponentialBackoffWithJitter.class Rand) max_retries retry_on_exceptions
    (ExponentialBackoffWithJitter.init Rand (PyInt 1) (PyInt 0) (PyInt 30)
       random_uniform seed).

End RetryOnException.

Arguments RetryOnException.max_retries {B} t.
Arguments RetryOnException.retry_on_exceptions {B} t.
Arguments RetryOnException.backoff_strategy {B} t.
Arguments RetryOnException.retryable {B} self e.
Arguments RetryOnException.attempts {S R} func n s.
Arguments RetryOnException.state_after {S R} func n s.
Arguments RetryOnException.iteration {B S R} func self st.
Arguments RetryOnException.iterate {B S R} func self n st.
Arguments RetryOnException.start {B S R} self s.
Arguments RetryOnException.wrapped {B S R} func self s fuel.
Arguments RetryOnException.outcome {R} x.
Arguments RetryOnException.from_operation {R} x.
Arguments RetryOnException.calls {R} tr.
Arguments RetryOnException.sleeps {R} tr.
Arguments RetryOnException.retry_events {R} ws es.
Arguments RetryOnException.retried {B S R} func st n ws es.
Arguments RetryOnException.how {B S R} r.
Arguments RetryOnException.events {B S R} r.
Arguments RetryOnException.final_strategy {B S R} r.
Arguments RetryOnException.final_world {B S R} r.
Arguments RetryOnException.i {B S R} l.
Arguments RetryOnException.gen {B S R} l.
Arguments RetryOnException.strategy {B S R} l.
Arguments RetryOnException.world {B S R} l.
Arguments RetryOnException.trace {B S R} l.

(** The value of the [n]-th [next()] (counted from 0) on a new iterator of the
    instance [o]. *)
Definition nth_value (B : BackoffStrategy) (n : nat) (o : Obj B) : gen_step :=
  let '(g, o0) := call B o in
  let '(g', o') := advance B n g o0 in
  fst (fst (next B g' o')).

(** [list(itertools.islice(strategy(), n))]. *)
Definition first_values (B : BackoffStrategy) (n : nat) (o : Obj B)
  : list number :=
  let '(g, o0) := call B o in fst (fst (islice B n g o0)).

(** The first [n] steps of a new iterator of the instance [o]. *)
Definition waits (B : BackoffStrategy) (n : nat) (o : Obj B) : list gen_step :=
  let '(g, o0) := call B o in draws B n g o0.

(** A wait that can be passed to [time.sleep], as the interface asks: it is
    not negative and the clock can hold it.  (Such a wait also formats.) *)
Definition sleepable (w : number) : Prop :=
  (PyInt 0 <= w)%num /\ (w <= PyInt clock_limit_seconds)%num.

(** The interface of [BackoffStrategy]: an infinite iterator of wait times
    that can be passed to [time.sleep]. *)
Definition infinite_sequence (B : BackoffStrategy) (o : Obj B) : Prop :=
  forall n : nat, exists ws : list number, waits B n o = map Yield ws.

Definition sleepable_waits (B : BackoffStrategy) (o : Obj B) : Prop :=
  forall (n : nat) (w : number), In (Yield w) (waits B n o) -> sleepable w.


(** ** The strategies and the decorated callable of the test suite *)

(** [_NoWait]: yields 0 for ever. *)
Definition NoWait : BackoffStrategy :=
  Build_BackoffStrategy unit unit
    (fun o => (tt, o))
    (fun g o => (Yield (PyInt 0), g, o)).

(** An iterator over a fixed list of waits, the shape of a strategy that
    breaks the interface by ending. *)
Definition FromList : BackoffStrategy :=
  Build_BackoffStrategy (list number) (list number)
    (fun o => (o, o))
    (fun g o =>
       match g with
       | [] => (Exhausted, [], o)
       | w :: g' => (Yield w, g', o)
       end).

(** [WorksOnNthAttempt.__call__] before decoration; the state is
    [self.attempts]. *)
Definition works_on_nth_attempt (n : Z) (error_gen : Z -> exc) (s : string)
    (attempts : Z) : op_result (string * Z) * Z :=
  if attempts =? n then (Returns (s, attempts), attempts)
  else (Raises (error_gen (attempts + 1 - 1)), attempts + 1).

(** A callable that raises the same error at every call. *)
Definition always_raises (e : exc) (s : unit) : op_result unit * unit :=
  (Raises e, s).

Definition test_policy : RetryOnException.t NoWait :=
  RetryOnException.init NoWait 5 (Some [ValueError; ZeroDivisionError]) tt.

Definition str (i : Z) : string := NilZero.string_of_int (Z.to_int i).

Definition value_error (i : Z) : exc :=
  {| exc_type := ValueError; exc_args := "Failed " ++ str i ++ " time[s]" |}.

Definition file_not_found_error (i : Z) : exc :=
  {| exc_type := FileNotFoundError;
     exc_args := "Failed " ++ str i ++ " time[s]" |}.

Definition odd_even_error (i : Z) : exc :=
  if i mod 2 =? 0
  then {| exc_type := ValueError; exc_args := "EVEN " ++ str i |}
  else {| exc_type := ZeroDivisionError; exc_args := "ODD " ++ str i |}.

(** ** Further definitions used by the properties *)

(** The exceptions raised by the operations the code relies on. *)
Definition shift_type_error : exc :=
  {| exc_type := TypeError;
     exc_args := "unsupported operand type(s) for <<: 'float' and 'int'" |}.

Definition sleep_value_error : exc :=
  {| exc_type := ValueError; exc_args := "sleep length must be non-negative" |}.

(** The random source of the tests, [lambda _, mx: mx]. *)
Definition returns_upper (Rand : Type) (r : Rand) (low high : number)
  : number * Rand :=
  (high, r).

(** A random source that stays at or below its upper argument, as
    [random.uniform(low, high)] does for [low <= high]. *)
Definition stays_below_upper (Rand : Type)
    (rng : Rand -> number -> number -> number * Rand) : Prop :=
  forall (r : Rand) (low high : number),
    (low <= high)%num -> (fst (rng r low high) <= high)%num.

(** A jitter strategy as [__init__] builds it from an integer base and bounds
    [0 <= min_wait <= max_wait], with such a source. *)
Definition jitter_in_order (Rand : Type)
    (self : ExponentialBackoffWithJitter.t Rand) (b : Z) : Prop :=
  ExponentialBackoff.base
    (ExponentialBackoffWithJitter.exponential_backoff Rand self) = PyInt b
  /\ 0 <= ExponentialBackoff.counter
            (ExponentialBackoffWithJitter.exponential_backoff Rand self)
  /\ ExponentialBackoffWithJitter.same_floor Rand self
  /\ (PyInt 0 <= ExponentialBackoffWithJitter.min_wait_seconds Rand self)%num
  /\ (ExponentialBackoff.min_wait_seconds
        (ExponentialBackoffWithJitter.exponential_backoff Rand self)
      <= ExponentialBackoff.max_wait_seconds
           (ExponentialBackoffWithJitter.exponential_backoff Rand self))%num
  /\ stays_below_upper Rand
       (ExponentialBackoffWithJitter.random_number_gen Rand self).

(** How many times a trace asked the strategy for a wait. *)
Definition draw_count {R : Type} (tr : list (RetryOnException.event R)) : nat :=
  List.length
    (filter (fun ev => match ev with RetryOnException.Draw _ => true | _ => false end)
       tr).


(** * Properties *)

(** ** Numbers *)

Lemma py_lt_true (a b : number) : py_lt a b = true <-> (a < b)%num.
Proof.
  unfold py_lt, num_lt. rewrite negb_true_iff.
  split; intro H.
  - apply Qnot_le_lt. intro Hle. apply Qle_bool_iff in Hle. congruence.
  - destruct (Qle_bool (to_Q b) (to_Q a)) eqn:E; [|reflexivity].
    apply Qle_bool_iff in E. exfalso. apply (Qlt_not_le _ _ H E).
Qed.

Lemma py_lt_false (a b : number) : py_lt a b = false <-> (b <= a)%num.
Proof.
  unfold py_lt, num_le. rewrite negb_false_iff. apply Qle_bool_iff.
Qed.

(** Case analysis on every comparison made by [py_min] and [py_max]. *)
Ltac split_comparisons :=
  repeat match goal with
  | |- context [py_lt ?a ?b] =>
      let E := fresh "E" in
      destruct (py_lt a b) eqn:E;
      [apply py_lt_true in E | apply py_lt_false in E];
      cbv beta iota
  end.

Ltac num_cases :=
  unfold ExponentialBackoff.clamp;
  unfold py_min; split_comparisons;
  unfold py_max, py_gt; split_comparisons;
  unfold num_le, num_lt, num_eq in *; cbn [to_Q] in *.

Lemma py_max_ge_l (a b : number) : (a <= py_max a b)%num.
Proof. num_cases; lra. Qed.

Lemma py_max_ge_r (a b : number) : (b <= py_max a b)%num.
Proof. num_cases; lra. Qed.

Lemma py_max_cases (a b : number) :
  (py_max a b = b /\ (a < b)%num) \/ (py_max a b = a /\ (b <= a)%num).
Proof. num_cases; [left | right]; split; try reflexivity; lra. Qed.

Lemma py_min_cases (a b : number) :
  (py_min a b = b /\ (b < a)%num) \/ (py_min a b = a /\ (a <= b)%num).
Proof. num_cases; [left | right]; split; try reflexivity; lra. Qed.

Lemma clamp_le_max (raw lo hi : number) :
  (lo <= hi)%num -> (ExponentialBackoff.clamp raw lo hi <= hi)%num.
Proof. intro H. num_cases; lra. Qed.

Lemma clamp_ge_min (raw lo hi : number) :
  (lo <= ExponentialBackoff.clamp raw lo hi)%num.
Proof. apply py_max_ge_l. Qed.

Lemma clamp_monotone (x y lo hi : number) :
  (x <= y)%num ->
  (ExponentialBackoff.clamp x lo hi <= ExponentialBackoff.clamp y lo hi)%num.
Proof. intro H. num_cases; lra. Qed.

Lemma shifted_monotone (b : Z) (i j : nat) :
  0 < b -> (i <= j)%nat ->
  (PyInt (b * 2 ^ Z.of_nat i) <= PyInt (b * 2 ^ Z.of_nat j))%num.
Proof.
  intros Hb Hij. unfold num_le; cbn [to_Q]. rewrite <- Zle_Qle.
  apply Z.mul_le_mono_nonneg_l; [lia|].
  apply Z.pow_le_mono_r; lia.
Qed.

(** ** ExponentialBackoff *)

Section ExponentialBackoffFacts.

Import ExponentialBackoff.

Lemma set_counter_same (self : t) : set_counter self (counter self) = self.
Proof. destruct self; reflexivity. Qed.

Lemma set_counter_twice (self : t) (c d : Z) :
  set_counter (set_counter self c) d = set_counter self d.
Proof. reflexivity. Qed.

(** With an integer base and a non-negative counter the body reaches its
    [yield] with the clamped value. *)
Lemma produce_int (self : t) (b : Z) :
  base self = PyInt b -> 0 <= counter self ->
  produce self
  = inr (clamp (PyInt (b * 2 ^ counter self))
           (min_wait_seconds self) (max_wait_seconds self)).
Proof.
  intros Hb Hc. unfold produce, py_lshift. rewrite Hb.
  destruct (counter self <? 0) eqn:E; [apply Z.ltb_lt in E; lia|].
  rewrite Z.shiftl_mul_pow2 by assumption. reflexivity.
Qed.

(** With a float base the shift raises. *)
Lemma produce_float (self : t) (x : Q) :
  base self = PyFloat x ->
  produce self
  = inl {| exc_type := TypeError;
           exc_args := "unsupported operand type(s) for <<: 'float' and 'int'" |}.
Proof. intros Hb. unfold produce, py_lshift. rewrite Hb. reflexivity. Qed.

Lemma advance_at_yield (self : t) (b : Z) (n : nat) :
  base self = PyInt b -> 0 <= counter self ->
  advance class n AtYield self
  = (AtYield, set_counter self (counter self + Z.of_nat n)).
Proof.
  revert self. induction n as [|n IH]; intros self Hb Hc.
  - cbn. rewrite Z.add_0_r, set_counter_same. reflexivity.
  - change (advance class (S n) AtYield self)
      with (let '(_, g', o') := next AtYield self in advance class n g' o').
    cbn [next]. unfold run_to_yield.
    rewrite (produce_int _ b) by (cbn; first [assumption | lia]).
    rewrite IH by (cbn; first [assumption | lia]).
    rewrite set_counter_twice. do 2 f_equal.
    unfold set_counter; cbn [counter]; lia.
Qed.

Lemma advance_not_started (self : t) (b : Z) (n : nat) :
  base self = PyInt b -> 0 <= counter self ->
  advance class (S n) NotStarted self
  = (AtYield, set_counter self (counter self + Z.of_nat n)).
Proof.
  intros Hb Hc.
  change (advance class (S n) NotStarted self)
    with (let '(_, g', o') := next NotStarted self in advance class n g' o').
  cbn [next]. unfold run_to_yield.
  rewrite (produce_int _ b) by assumption.
  apply (advance_at_yield self b n Hb Hc).
Qed.

(** The [n]-th value of a new iterator when the counter is at [c]. *)
Lemma nth_value_from_counter (self : t) (b : Z) (n : nat) :
  base self = PyInt b -> 0 <= counter self ->
  nth_value class n self
  = Yield (clamp (PyInt (b * 2 ^ (counter self + Z.of_nat n)))
             (min_wait_seconds self) (max_wait_seconds self)).
Proof.
  intros Hb Hc.
  change (nth_value class n self)
    with (let '(g', o') := advance class n NotStarted self in
          fst (fst (next g' o'))).
  destruct n as [|n].
  - change (advance class 0 NotStarted self) with (NotStarted, self).
    cbn [next]. unfold run_to_yield.
    rewrite (produce_int _ b) by assumption. cbn [fst]. rewrite Z.add_0_r.
    reflexivity.
  - rewrite (advance_not_started self b n Hb Hc).
    cbn [next]. unfold run_to_yield.
    rewrite (produce_int _ b) by (cbn; first [assumption | lia]).
    unfold set_counter; cbn [fst counter min_wait_seconds max_wait_seconds].
    replace (counter self + Z.of_nat n + 1)
      with (counter self + Z.of_nat (S n)) by lia.
    reflexivity.
Qed.

(** [next] writes the counter and nothing else. *)
Lemma next_keeps_configuration (f : frame) (self : t) :
  let self' := snd (next f self) in
  base self' = base self
  /\ min_wait_seconds self' = min_wait_seconds self
  /\ max_wait_seconds self' = max_wait_seconds self.
Proof.
  destruct f; cbn [next]; unfold run_to_yield;
    try (destruct (produce _)); cbn; auto.
Qed.

Lemma advance_finished (self : t) (n : nat) :
  advance class n Finished self = (Finished, self).
Proof. induction n as [|n IH]; [reflexivity | exact IH]. Qed.

(** With a float base no [next()] ever gives a value: the first one raises,
    which ends the generator. *)
Lemma float_base_never_yields (self : t) (x : Q) (n : nat) (w : number) :
  base self = PyFloat x -> nth_value class n self <> Yield w.
Proof.
  intros Hb.
  change (nth_value class n self)
    with (let '(g', o') := advance class n NotStarted self in
          fst (fst (next g' o'))).
  destruct n as [|n].
  - change (advance class 0 NotStarted self) with (NotStarted, self).
    cbn [next]. unfold run_to_yield. rewrite (produce_float _ x Hb).
    discriminate.
  - change (advance class (S n) NotStarted self)
      with (let '(_, g', o') := next NotStarted self in advance class n g' o').
    cbn [next]. unfold run_to_yield. rewrite (produce_float _ x Hb).
    rewrite advance_finished. discriminate.
Qed.

(** The [n]-th value of a new strategy with an integer base is the clamped
    [base * 2^n]: on integers the shift is the multiplication of the
    docstring. *)
Lemma integer_base_nth_value (b : Z) (min_wait max_wait : number) (n : nat) :
  nth_value class n (init (PyInt b) min_wait max_wait)
  = Yield (clamp (PyInt (b * 2 ^ Z.of_nat n)) min_wait max_wait).
Proof.
  rewrite (nth_value_from_counter _ b n) by (cbn; first [reflexivity | lia]).
  reflexivity.
Qed.

(** C1, at a base that is a number but not an integer.  The formula gives the
    first value of [ExponentialBackoff(base=1.5)] as [clamp(1.5, 0, 30)];
    the code shifts the base with [<<], which floats do not support, so the
    first [next()] raises [TypeError] and no value is produced. *)
Theorem float_base_first_value_raises :
  nth_value class 0 (init (PyFloat (3 # 2)) (PyInt 0) (PyInt 30))
  = GenRaise
      {| exc_type := TypeError;
         exc_args := "unsupported operand type(s) for <<: 'float' and 'int'" |}
  /\ clamp (PyFloat ((3 # 2) * inject_Z (2 ^ 0))) (PyInt 0) (PyInt 30)
     = PyFloat (3 # 2).
Proof. split; reflexivity. Qed.

(** C5, as amended.  Starting a sequence runs no code of the body and leaves
    the counter alone; the first value of a sequence is computed from the
    counter as it stands and does not change it; every later value of a
    sequence first adds exactly 1 to the counter of the instance, whichever
    sequence of the instance is resumed.  With an integer base the first value
    of a new sequence is therefore the clamped [base * 2^counter], not the
    clamped [base]. *)
Theorem counter_is_instance_state (self : t) :
  call self = (NotStarted, self)
  /\ (let '(st, _, self') := next NotStarted self in
      counter self' = counter self
      /\ st = match produce self with inl e => GenRaise e | inr w => Yield w end)
  /\ (let '(st, _, self') := next AtYield self in
      counter self' = counter self + 1
      /\ st = match produce self' with inl e => GenRaise e | inr w => Yield w end)
  /\ (forall b : Z, base self = PyInt b -> 0 <= counter self ->
      nth_value class 0 self
      = Yield (clamp (PyInt (b * 2 ^ counter self))
                 (min_wait_seconds self) (max_wait_seconds self))).
Proof.
  split; [reflexivity|]. split; [|split].
  - cbn [next]. unfold run_to_yield.
    destruct (produce self); split; reflexivity.
  - cbn [next]. unfold run_to_yield.
    destruct (produce (set_counter self (counter self + 1))) eqn:E;
      (split; [reflexivity | now rewrite E]).
  - intros b Hb Hc. rewrite (nth_value_from_counter self b 0 Hb Hc).
    rewrite Z.add_0_r. reflexivity.
Qed.

Lemma counter_is_instance_state_witness :
  let self := set_counter default 2 in
  nth_value class 0 self = Yield (PyInt 4).
Proof.
  intro self.
  destruct (counter_is_instance_state self) as (_ & _ & _ & H).
  rewrite (H 1); [reflexivity | reflexivity | cbn; lia].
Defined.

(** C5 as stated fails: the first value of a sequence is produced without the
    counter moving. *)
Lemma first_production_keeps_counter :
  ~ (forall (f : frame) (self : t) (w : number) (f' : frame) (self' : t),
        next f self = (Yield w, f', self') ->
        counter self' = counter self + 1).
Proof.
  intro H.
  specialize (H NotStarted default (PyInt 1) AtYield default eq_refl).
  discriminate H.
Qed.

(** C7.  With a positive base and [min_wait <= max_wait], the values a new
    strategy produces never decrease, and once one equals [max_wait] all later
    ones do; with an integer base every [next()] does produce a value. *)
Theorem sequence_non_decreasing_then_constant
    (b min_wait max_wait : number) (i j : nat) :
  (PyInt 0 < b)%num -> (min_wait <= max_wait)%num -> (i <= j)%nat ->
  let self := init b min_wait max_wait in
  (forall vi vj : number,
      nth_value class i self = Yield vi ->
      nth_value class j self = Yield vj ->
      (vi <= vj)%num /\ ((vi == max_wait)%num -> (vj == max_wait)%num))
  /\ (forall z : Z, b = PyInt z ->
      exists vi vj : number,
        nth_value class i self = Yield vi /\ nth_value class j self = Yield vj).
Proof.
  intros Hb Hmm Hij self. split.
  - intros vi vj Hi Hj. destruct b as [z | x].
    + unfold self in Hi, Hj. rewrite integer_base_nth_value in Hi, Hj.
      injection Hi as <-. injection Hj as <-.
      assert (Hz : 0 < z).
      { unfold num_lt in Hb; cbn [to_Q] in Hb. rewrite <- Zlt_Qlt in Hb. exact Hb. }
      pose proof (shifted_monotone z i j Hz Hij) as Hraw.
      pose proof (clamp_monotone _ _ min_wait max_wait Hraw) as Hmono.
      split; [exact Hmono|].
      intros Htop.
      pose proof (clamp_le_max (PyInt (z * 2 ^ Z.of_nat j)) _ _ Hmm) as Hcap.
      unfold num_le, num_eq in *. lra.
    + exfalso. exact (float_base_never_yields self x i vi eq_refl Hi).
  - intros z ->. unfold self. rewrite !integer_base_nth_value.
    eexists; eexists; split; reflexivity.
Qed.

Lemma sequence_non_decreasing_then_constant_witness :
  let self := init (PyInt 1) (PyInt 3) (PyInt 5) in
  (forall vi vj : number,
      nth_value class 2 self = Yield vi ->
      nth_value class 4 self = Yield vj ->
      (vi <= vj)%num /\ ((vi == PyInt 5)%num -> (vj == PyInt 5)%num))
  /\ (forall z : Z, PyInt 1 = PyInt z ->
      exists vi vj : number,
        nth_value class 2 self = Yield vi /\ nth_value class 4 self = Yield vj).
Proof.
  apply (sequence_non_decreasing_then_constant
           (PyInt 1) (PyInt 3) (PyInt 5) 2 4).
  - now vm_compute.
  - now vm_compute.
  - lia.
Defined.

(** With an integer base every [next()] of a live iterator gives a value, and
    the value is at least the floor. *)
Lemma exponential_draws (n : nat) (f : frame) (self : t) (b : Z) :
  base self = PyInt b -> 0 <= counter self -> f <> Finished ->
  exists ws : list number,
    draws class n f self = map Yield ws
    /\ Forall (fun w => (min_wait_seconds self <= w)%num) ws.
Proof.
  revert f self. induction n as [|n IH]; intros f self Hb Hc Hf.
  - exists []. split; [reflexivity | constructor].
  - change (draws class (S n) f self)
      with (let '(st, g', o') := next f self in st :: draws class n g' o').
    destruct f; [| |congruence]; cbn [next]; unfold run_to_yield.
    + rewrite (produce_int _ b) by assumption.
      destruct (IH AtYield self Hb Hc) as (ws & Hws & Hall); [discriminate|].
      rewrite Hws. eexists (_ :: ws). split; [reflexivity|].
      constructor; [apply clamp_ge_min | exact Hall].
    + rewrite (produce_int _ b) by (cbn; first [assumption | lia]).
      destruct (IH AtYield (set_counter self (counter self + 1)))
        as (ws & Hws & Hall); [exact Hb | cbn; lia | discriminate |].
      rewrite Hws. eexists (_ :: ws). split; [reflexivity|].
      constructor; [apply clamp_ge_min | exact Hall].
Qed.

Lemma exponential_backoff_infinite (self : t) (b : Z) :
  base self = PyInt b -> 0 <= counter self -> infinite_sequence class self.
Proof.
  intros Hb Hc n.
  destruct (exponential_draws n NotStarted self b Hb Hc) as (ws & Hws & _);
    [discriminate|].
  exists ws. exact Hws.
Qed.

(** With [min_wait <= max_wait] the values also stay at or below the cap. *)
Lemma exponential_draws_bounded (n : nat) (f : frame) (self : t) (b : Z) :
  base self = PyInt b -> 0 <= counter self -> f <> Finished ->
  (min_wait_seconds self <= max_wait_seconds self)%num ->
  exists ws : list number,
    draws class n f self = map Yield ws
    /\ Forall (fun w => (min_wait_seconds self <= w)%num
                        /\ (w <= max_wait_seconds self)%num) ws.
Proof.
  revert f self. induction n as [|n IH]; intros f self Hb Hc Hf Hbounds.
  - exists []. split; [reflexivity | constructor].
  - change (draws class (S n) f self)
      with (let '(st, g', o') := next f self in st :: draws class n g' o').
    destruct f; [| |congruence]; cbn [next]; unfold run_to_yield.
    + rewrite (produce_int _ b) by assumption.
      destruct (IH AtYield self Hb Hc) as (ws & Hws & Hall);
        [discriminate | exact Hbounds |].
      rewrite Hws. eexists (_ :: ws). split; [reflexivity|].
      constructor; [|exact Hall].
      split; [apply clamp_ge_min | apply clamp_le_max; exact Hbounds].
    + rewrite (produce_int _ b) by (cbn; first [assumption | lia]).
      destruct (IH AtYield (set_counter self (counter self + 1)))
        as (ws & Hws & Hall);
        [exact Hb | cbn; lia | discriminate | exact Hbounds |].
      rewrite Hws. eexists (_ :: ws). split; [reflexivity|].
      constructor; [|exact Hall].
      split; [apply clamp_ge_min | apply clamp_le_max; exact Hbounds].
Qed.

Lemma exponential_backoff_sleepable (self : t) (b : Z) :
  base self = PyInt b -> 0 <= counter self ->
  (PyInt 0 <= min_wait_seconds self)%num ->
  (min_wait_seconds self <= max_wait_seconds self)%num ->
  (max_wait_seconds self <= PyInt clock_limit_seconds)%num ->
  sleepable_waits class self.
Proof.
  intros Hb Hc Hmin Hbounds Hmax n w Hin.
  destruct (exponential_draws_bounded n NotStarted self b Hb Hc)
    as (ws & Hws & Hall); [discriminate | exact Hbounds |].
  change (In (Yield w) (draws class n NotStarted self)) in Hin.
  rewrite Hws in Hin. apply in_map_iff in Hin as (w' & Hw' & Hin).
  injection Hw' as ->. rewrite Forall_forall in Hall.
  specialize (Hall w Hin). unfold sleepable, num_le in *. split; lra.
Qed.

End ExponentialBackoffFacts.

(** ** ExponentialBackoffWithJitter *)

Lemma exponential_value_is_clamped (f f' : ExponentialBackoff.frame)
    (self self' : ExponentialBackoff.t) (u : number) :
  ExponentialBackoff.next f self = (Yield u, f', self') ->
  exists raw : number,
    u = ExponentialBackoff.clamp raw
          (ExponentialBackoff.min_wait_seconds self)
          (ExponentialBackoff.max_wait_seconds self).
Proof.
  destruct f; cbn [ExponentialBackoff.next];
    unfold ExponentialBackoff.run_to_yield, ExponentialBackoff.produce;
    cbn [ExponentialBackoff.set_counter ExponentialBackoff.base
         ExponentialBackoff.counter];
    try discriminate.
  - destruct (py_lshift _ _) as [e | raw]; [discriminate|].
    intros H; injection H as <- _ _. exists raw. reflexivity.
  - destruct (py_lshift _ _) as [e | raw]; [discriminate|].
    intros H; injection H as <- _ _. exists raw. reflexivity.
Qed.

Section JitterFacts.

Import ExponentialBackoffWithJitter.

Variable Rand : Type.

Lemma init_same_floor (b min_wait max_wait : number)
    (rng : Rand -> number -> number -> number * Rand) (seed : Rand) :
  same_floor Rand (init Rand b min_wait max_wait rng seed).
Proof. reflexivity. Qed.

Lemma loop_turn_same_floor (inner : ExponentialBackoff.frame) (self : t Rand) :
  same_floor Rand self -> same_floor Rand (snd (loop_turn Rand inner self)).
Proof.
  unfold same_floor, loop_turn. intros H.
  destruct (next_keeps_configuration
              inner (exponential_backoff Rand self)) as (_ & Hmin & _).
  destruct (ExponentialBackoff.next inner (exponential_backoff Rand self))
    as [[[w | | e] inner'] eb']; cbn [snd] in Hmin.
  - destruct (random_number_gen Rand self (rand Rand self) (PyInt 0) w).
    cbn. congruence.
  - cbn. congruence.
  - cbn. congruence.
Qed.

(** Every state reached from [__init__] has the floor of the strategy it
    holds. *)
Lemma next_same_floor (f : frame) (self : t Rand) :
  same_floor Rand self -> same_floor Rand (snd (next Rand f self)).
Proof.
  intros H. destruct f as [| inner |]; cbn [next ExponentialBackoff.call].
  - apply loop_turn_same_floor. exact H.
  - apply loop_turn_same_floor. exact H.
  - exact H.
Qed.

(** What the held strategy gives is what the jitter iterator gives when it is
    not a value. *)
Lemma jitter_passes_failure_on (f : frame) (self : t Rand) :
  (underlying Rand f self = Exhausted -> fst (fst (next Rand f self)) = Exhausted)
  /\ (forall e : exc, underlying Rand f self = GenRaise e ->
      fst (fst (next Rand f self)) = GenRaise e).
Proof.
  unfold underlying.
  destruct f as [| inner |]; cbn [next inner_frame ExponentialBackoff.call];
    unfold loop_turn; cbn [exponential_backoff update rand].
  - destruct (ExponentialBackoff.next ExponentialBackoff.NotStarted
                (exponential_backoff Rand self)) as [[[w | | e] g] eb];
      cbn [fst]; split; try discriminate; auto.
  - destruct (ExponentialBackoff.next inner (exponential_backoff Rand self))
      as [[[w | | e] g] eb]; cbn [fst]; split; try discriminate; auto.
  - cbn; split; [reflexivity | discriminate].
Qed.

(** C6.  When the held [ExponentialBackoff] gives [u] next, the jitter
    iterator gives [max(min_wait_seconds, rng(0, u))].  If moreover the draw
    [r = rng(0, u)] lies in [[0, u)], the floor is that of the held strategy
    and [0 <= min_wait <= max_wait], then the value [v] is at least the floor,
    is below [u] or is the floor itself, and is at most [max_wait]. *)
Theorem jitter_value (f : frame) (self : t Rand) (u : number) :
  underlying Rand f self = Yield u ->
  let min_wait := min_wait_seconds Rand self in
  let max_wait :=
    ExponentialBackoff.max_wait_seconds (exponential_backoff Rand self) in
  let r := fst (random_number_gen Rand self (rand Rand self) (PyInt 0) u) in
  let v := py_max min_wait r in
  fst (fst (next Rand f self)) = Yield v
  /\ (same_floor Rand self ->
      (min_wait <= max_wait)%num -> (PyInt 0 <= min_wait)%num ->
      (PyInt 0 <= r)%num /\ (r < u)%num ->
      (min_wait <= v)%num /\ ((v < u)%num \/ v = min_wait) /\ (v <= max_wait)%num).
Proof.
  intros Hu min_wait max_wait r v. split.
  - revert Hu. unfold underlying.
    destruct f as [| inner |]; cbn [next inner_frame ExponentialBackoff.call];
      unfold loop_turn;
      cbn [exponential_backoff update rand random_number_gen min_wait_seconds].
    + destruct (ExponentialBackoff.next ExponentialBackoff.NotStarted
                  (exponential_backoff Rand self)) as [[[w | | e] g] eb];
        cbn [fst]; try discriminate.
      intros H; injection H as ->. subst v r min_wait.
      destruct (random_number_gen Rand self (rand Rand self) (PyInt 0) u).
      reflexivity.
    + destruct (ExponentialBackoff.next inner (exponential_backoff Rand self))
        as [[[w | | e] g] eb]; cbn [fst]; try discriminate.
      intros H; injection H as ->. subst v r min_wait.
      destruct (random_number_gen Rand self (rand Rand self) (PyInt 0) u).
      reflexivity.
    + cbn. discriminate.
  - intros Hfloor Hbounds Hnonneg [Hr0 Hru].
    assert (Hcap : (u <= max_wait)%num).
    { unfold underlying in Hu.
      destruct (ExponentialBackoff.next (inner_frame f)
                  (exponential_backoff Rand self)) as [[st g] eb] eqn:E.
      cbn [fst] in Hu. subst st.
      destruct (exponential_value_is_clamped _ _ _ _ _ E) as [raw ->].
      apply clamp_le_max. unfold same_floor in Hfloor.
      rewrite <- Hfloor. exact Hbounds. }
    subst v. destruct (py_max_cases min_wait r) as [[-> Hlt] | [-> Hle]].
    + unfold num_le, num_lt in *. repeat split; [lra | left; lra | lra].
    + unfold num_le, num_lt in *. repeat split; [lra | right; reflexivity | lra].
Qed.

(** A turn of the loop over a live inner iterator with an integer base gives
    a value that is at least the floor, whatever the random source returns. *)
Lemma loop_turn_yields (inner : ExponentialBackoff.frame) (self : t Rand)
    (b : Z) :
  ExponentialBackoff.base (exponential_backoff Rand self) = PyInt b ->
  0 <= ExponentialBackoff.counter (exponential_backoff Rand self) ->
  inner <> ExponentialBackoff.Finished ->
  exists (w : number) (self' : t Rand),
    loop_turn Rand inner self
    = (Yield w, InLoop ExponentialBackoff.AtYield, self')
    /\ ExponentialBackoff.base (exponential_backoff Rand self') = PyInt b
    /\ 0 <= ExponentialBackoff.counter (exponential_backoff Rand self')
    /\ min_wait_seconds Rand self' = min_wait_seconds Rand self
    /\ (min_wait_seconds Rand self <= w)%num.
Proof.
  intros Hb Hc Hinner. unfold loop_turn.
  destruct inner; [| |congruence]; cbn [ExponentialBackoff.next];
    unfold ExponentialBackoff.run_to_yield.
  - rewrite (produce_int _ b) by assumption.
    destruct (random_number_gen Rand self (rand Rand self) (PyInt 0) _)
      as [random_wait r'].
    eexists; eexists; split; [reflexivity|].
    cbn [exponential_backoff update min_wait_seconds].
    repeat split; try assumption. apply py_max_ge_l.
  - rewrite (produce_int _ b) by (cbn; first [assumption | lia]).
    destruct (random_number_gen Rand self (rand Rand self) (PyInt 0) _)
      as [random_wait r'].
    eexists; eexists; split; [reflexivity|].
    cbn [exponential_backoff update min_wait_seconds].
    repeat split; try assumption; [cbn; lia | apply py_max_ge_l].
Qed.

Lemma jitter_draws (n : nat) (f : frame) (self : t Rand) (b : Z) :
  ExponentialBackoff.base (exponential_backoff Rand self) = PyInt b ->
  0 <= ExponentialBackoff.counter (exponential_backoff Rand self) ->
  inner_frame f <> ExponentialBackoff.Finished ->
  exists ws : list number,
    draws (class Rand) n f self = map Yield ws
    /\ Forall (fun w => (min_wait_seconds Rand self <= w)%num) ws.
Proof.
  revert f self. induction n as [|n IH]; intros f self Hb Hc Hf.
  - exists []. split; [reflexivity | constructor].
  - change (draws (class Rand) (S n) f self)
      with (let '(st, g', o') := next Rand f self in
            st :: draws (class Rand) n g' o').
    assert (Hturn : exists (w : number) (self' : t Rand),
               next Rand f self
               = (Yield w, InLoop ExponentialBackoff.AtYield, self')
               /\ ExponentialBackoff.base (exponential_backoff Rand self')
                  = PyInt b
               /\ 0 <= ExponentialBackoff.counter (exponential_backoff Rand self')
               /\ min_wait_seconds Rand self' = min_wait_seconds Rand self
               /\ (min_wait_seconds Rand self <= w)%num).
    { destruct f as [| inner |]; cbn [next ExponentialBackoff.call].
      - apply (loop_turn_yields ExponentialBackoff.NotStarted
                 (update Rand self (exponential_backoff Rand self)
                    (rand Rand self)) b); cbn; [assumption | assumption |].
        discriminate.
      - apply (loop_turn_yields inner self b); assumption.
      - cbn in Hf. congruence. }
    destruct Hturn as (w & self' & -> & Hb' & Hc' & Hmin & Hw).
    destruct (IH (InLoop ExponentialBackoff.AtYield) self' Hb' Hc')
      as (ws & Hws & Hall); [cbn; discriminate|].
    rewrite Hws. exists (w :: ws). split; [reflexivity|].
    constructor; [exact Hw|]. rewrite <- Hmin. exact Hall.
Qed.

(** With a source that stays below its upper argument the values also stay at
    or below the cap of the held strategy. *)
Lemma loop_turn_bounded (inner : ExponentialBackoff.frame) (self : t Rand)
    (b : Z) :
  jitter_in_order Rand self b ->
  inner <> ExponentialBackoff.Finished ->
  exists (w : number) (self' : t Rand),
    loop_turn Rand inner self
    = (Yield w, InLoop ExponentialBackoff.AtYield, self')
    /\ jitter_in_order Rand self' b
    /\ min_wait_seconds Rand self' = min_wait_seconds Rand self
    /\ ExponentialBackoff.max_wait_seconds (exponential_backoff Rand self')
       = ExponentialBackoff.max_wait_seconds (exponential_backoff Rand self)
    /\ (min_wait_seconds Rand self <= w)%num
    /\ (w <= ExponentialBackoff.max_wait_seconds
               (exponential_backoff Rand self))%num.
Proof.
  intros (Hb & Hc & Hfloor & Hmin & Hbounds & Hrng) Hinner.
  unfold loop_turn.
  pose proof (next_keeps_configuration inner (exponential_backoff Rand self))
    as (Kb & Kmin & Kmax).
  assert (Hnext : exists u eb',
             ExponentialBackoff.next inner (exponential_backoff Rand self)
             = (Yield u, ExponentialBackoff.AtYield, eb')
             /\ 0 <= ExponentialBackoff.counter eb'
             /\ (ExponentialBackoff.min_wait_seconds
                   (exponential_backoff Rand self) <= u)%num
             /\ (u <= ExponentialBackoff.max_wait_seconds
                        (exponential_backoff Rand self))%num).
  { destruct inner; [| |congruence]; cbn [ExponentialBackoff.next];
      unfold ExponentialBackoff.run_to_yield.
    - rewrite (produce_int _ b) by assumption.
      eexists; eexists; split; [reflexivity|].
      split; [assumption|].
      split; [apply clamp_ge_min | apply clamp_le_max; assumption].
    - rewrite (produce_int _ b) by (cbn; first [assumption | lia]).
      eexists; eexists; split; [reflexivity|].
      split; [cbn; lia|].
      split; [apply clamp_ge_min | apply clamp_le_max; assumption]. }
  destruct Hnext as (u & eb' & E & Hc' & Hlo & Hhi).
  rewrite E in *. cbn [snd] in Kb, Kmin, Kmax.
  unfold same_floor in Hfloor.
  assert (H0u : (PyInt 0 <= u)%num).
  { unfold num_le in *. rewrite Hfloor in Hmin. lra. }
  pose proof (Hrng (rand Rand self) (PyInt 0) u H0u) as Hr.
  destruct (random_number_gen Rand self (rand Rand self) (PyInt 0) u)
    as [random_wait r']. cbn [fst] in Hr.
  eexists; eexists; split; [reflexivity|].
  cbn [exponential_backoff update min_wait_seconds random_number_gen].
  split.
  { unfold jitter_in_order, same_floor.
    cbn [exponential_backoff update min_wait_seconds random_number_gen].
    rewrite Kb, Kmin, Kmax. repeat split; assumption. }
  split; [reflexivity|]. split; [exact Kmax|].
  split; [apply py_max_ge_l|].
  destruct (py_max_cases (min_wait_seconds Rand self) random_wait)
    as [[-> _] | [-> _]]; unfold num_le in *.
  - lra.
  - rewrite Hfloor. exact Hbounds.
Qed.

Lemma jitter_draws_bounded (n : nat) (f : frame) (self : t Rand) (b : Z) :
  jitter_in_order Rand self b ->
  inner_frame f <> ExponentialBackoff.Finished ->
  exists ws : list number,
    draws (class Rand) n f self = map Yield ws
    /\ Forall (fun w =>
                 (min_wait_seconds Rand self <= w)%num
                 /\ (w <= ExponentialBackoff.max_wait_seconds
                            (exponential_backoff Rand self))%num) ws.
Proof.
  revert f self. induction n as [|n IH]; intros f self Hok Hf.
  - exists []. split; [reflexivity | constructor].
  - change (draws (class Rand) (S n) f self)
      with (let '(st, g', o') := next Rand f self in
            st :: draws (class Rand) n g' o').
    assert (Hturn : exists (w : number) (self' : t Rand),
               next Rand f self
               = (Yield w, InLoop ExponentialBackoff.AtYield, self')
               /\ jitter_in_order Rand self' b
               /\ min_wait_seconds Rand self' = min_wait_seconds Rand self
               /\ ExponentialBackoff.max_wait_seconds
                    (exponential_backoff Rand self')
                  = ExponentialBackoff.max_wait_seconds
                      (exponential_backoff Rand self)
               /\ (min_wait_seconds Rand self <= w)%num
               /\ (w <= ExponentialBackoff.max_wait_seconds
                          (exponential_backoff Rand self))%num).
    { destruct f as [| inner |]; cbn [next ExponentialBackoff.call].
      - apply (loop_turn_bounded ExponentialBackoff.NotStarted
                 (update Rand self (exponential_backoff Rand self)
                    (rand Rand self)) b); [exact Hok | discriminate].
      - apply (loop_turn_bounded inner self b); assumption.
      - cbn in Hf. congruence. }
    destruct Hturn as (w & self' & -> & Hok' & Hmin & Hmax & Hlo & Hhi).
    destruct (IH (InLoop ExponentialBackoff.AtYield) self' Hok')
      as (ws & Hws & Hall); [cbn; discriminate|].
    rewrite Hws. exists (w :: ws). split; [reflexivity|].
    constructor; [split; assumption|]. rewrite <- Hmin, <- Hmax. exact Hall.
Qed.

(** A jitter strategy in order whose cap the clock can hold honours the
    interface: its sequence never ends and its waits can be slept. *)
Lemma jitter_infinite_and_sleepable (self : t Rand) (b : Z) :
  jitter_in_order Rand self b ->
  (ExponentialBackoff.max_wait_seconds (exponential_backoff Rand self)
   <= PyInt clock_limit_seconds)%num ->
  infinite_sequence (class Rand) self /\ sleepable_waits (class Rand) self.
Proof.
  intros Hok Hmax. split.
  - intros n.
    destruct (jitter_draws_bounded n NotStarted self b Hok) as (ws & Hws & _);
      [cbn; discriminate|].
    exists ws. exact Hws.
  - intros n w Hin.
    destruct (jitter_draws_bounded n NotStarted self b Hok)
      as (ws & Hws & Hall); [cbn; discriminate|].
    change (In (Yield w) (draws (class Rand) n NotStarted self)) in Hin.
    rewrite Hws in Hin. apply in_map_iff in Hin as (w' & Hw' & Hin).
    injection Hw' as ->. rewrite Forall_forall in Hall.
    destruct (Hall w Hin) as [Hlo Hhi].
    destruct Hok as (_ & _ & _ & Hmin & _).
    unfold sleepable, num_le in *. split; lra.
Qed.

End JitterFacts.

Lemma jitter_value_witness :
  let self :=
    ExponentialBackoffWithJitter.init unit (PyInt 1) (PyInt 0) (PyInt 5)
      (fun s _ _ => (PyFloat (1 # 2), s)) tt in
  let v := PyFloat (1 # 2) in
  fst (fst (ExponentialBackoffWithJitter.next unit
              ExponentialBackoffWithJitter.NotStarted self)) = Yield v
  /\ (PyInt 0 <= v)%num /\ ((v < PyInt 1)%num \/ v = PyInt 0) /\ (v <= PyInt 5)%num.
Proof.
  intros self v.
  destruct (jitter_value unit ExponentialBackoffWithJitter.NotStarted self
              (PyInt 1) eq_refl) as [Hv Hrange].
  split; [exact Hv|].
  apply Hrange.
  - reflexivity.
  - now vm_compute.
  - now vm_compute.
  - split; now vm_compute.
Defined.

(** ** RetryOnException *)

Lemma clock_below_float_limit : clock_limit_seconds < float_limit.
Proof. now vm_compute. Qed.

(** A length within the clock on either side of zero formats and converts. *)
Lemma within_clock_formats_and_fits (w : number) :
  (PyInt (- clock_limit_seconds) <= w)%num ->
  (w <= PyInt clock_limit_seconds)%num ->
  format_2f w = inr tt /\ fits_clock w = true.
Proof.
  unfold num_le. intros Hlo Hhi. destruct w as [i | x]; cbn [to_Q] in *.
  - rewrite <- Zle_Qle in Hlo, Hhi. split.
    + unfold format_2f. pose proof clock_below_float_limit.
      destruct (Z.abs i <? float_limit) eqn:E; [reflexivity|].
      apply Z.ltb_ge in E. unfold clock_limit_seconds in *. lia.
    + unfold fits_clock. apply andb_true_iff. split; apply Z.leb_le; lia.
  - split; [reflexivity|].
    unfold fits_clock, clock_limit_seconds in *. apply andb_true_iff. split.
    + apply Qle_bool_iff. unfold inject_Z in *. cbn [Z.opp] in *. lra.
    + apply negb_true_iff.
      destruct (Qle_bool (9223372036854775296 # 1) (x * (1000000000 # 1)))
        eqn:E; [|reflexivity].
      apply Qle_bool_iff in E. unfold inject_Z in *. lra.
Qed.

Lemma format_2f_sleepable (w : number) : sleepable w -> format_2f w = inr tt.
Proof.
  intros [H0 Hmax]. apply within_clock_formats_and_fits; [|exact Hmax].
  unfold num_le, clock_limit_seconds in *. cbn [to_Q] in *.
  unfold inject_Z in *. cbn [Z.opp] in *. lra.
Qed.

Lemma time_sleep_sleepable (w : number) : sleepable w -> time_sleep w = inr tt.
Proof.
  intros [H0 Hmax]. unfold time_sleep.
  destruct (within_clock_formats_and_fits w) as [_ ->]; [|exact Hmax|].
  - unfold num_le, clock_limit_seconds in *. cbn [to_Q] in *.
    unfold inject_Z in *. cbn [Z.opp] in *. lra.
  - destruct (py_lt w (PyInt 0)) eqn:E; [|reflexivity].
    apply py_lt_true in E. unfold num_le, num_lt in *. lra.
Qed.



Section RetryFacts.

Import RetryOnException.

Variable B : BackoffStrategy.
Variables S R : Type.
Variable func : S -> op_result R * S.
Variable self : t B.

Local Abbreviation loop_state := (loop_state B S R).
Local Abbreviation result := (result B S R).



Lemma calls_app (tr tr' : list (event R)) :
  calls (tr ++ tr') = (calls tr + calls tr')%nat.
Proof. unfold calls. now rewrite filter_app, length_app. Qed.

Lemma sleeps_app (tr tr' : list (event R)) :
  sleeps (tr ++ tr') = sleeps tr ++ sleeps tr'.
Proof.
  induction tr as [|ev tr IH]; [reflexivity|].
  destruct ev; cbn; now rewrite IH.
Qed.

Lemma calls_retry_events (ws : list number) (es : list exc) :
  List.length ws = List.length es ->
  calls (R := R) (retry_events ws es) = List.length es.
Proof.
  revert es. induction ws as [|w ws IH]; intros [|e es] H;
    try discriminate; [reflexivity|].
  cbn in H. injection H as H. unfold calls in *. cbn. now rewrite IH.
Qed.


(** Running out of fuel later does not change a result. *)
Lemma iterate_more (n m : nat) (st : loop_state) (res : result) :
  iterate func self n st = inr res -> (n <= m)%nat ->
  iterate func self m st = inr res.
Proof.
  revert m st. induction n as [|n IH]; intros m st H Hle; [discriminate|].
  destruct m as [|m]; [lia|].
  cbn [iterate] in *. destruct (iteration func self st) as [st' | res'].
  - apply IH; [exact H | lia].
  - exact H.
Qed.

Lemma iterate_snoc (n : nat) (st st' : loop_state) :
  iterate func self n st = inl st' ->
  iterate func self (Datatypes.S n) st
  = match iteration func self st' with
    | inl st'' => inl st''
    | inr res => inr res
    end.
Proof.
  revert st. induction n as [|n IH]; intros st H.
  - cbn in H. injection H as ->. cbn.
    destruct (iteration func self st'); reflexivity.
  - change (iterate func self (Datatypes.S (Datatypes.S n)) st)
      with (match iteration func self st with
            | inl st1 => iterate func self (Datatypes.S n) st1
            | inr r => inr r
            end).
    cbn [iterate] in H. destruct (iteration func self st) as [st1 | r].
    + apply IH. exact H.
    + discriminate.
Qed.

(** As long as the calls raise retryable errors, the budget is not reached and
    the waits can be slept, the loop keeps going. *)
Lemma retry_prefix (n : nat) (es : list exc) (ws : list number)
    (st : loop_state) :
  attempts func n (world st) = map Raises es ->
  Forall (retryable self) es ->
  draws B n (gen st) (strategy st) = map Yield ws ->
  Forall sleepable ws ->
  (forall k : nat, (k < n)%nat -> i st + 1 + Z.of_nat k <> max_retries self) ->
  iterate func self n st = inl (retried func st n ws es).
Proof.
  revert es ws st. induction n as [|n IH]; intros es ws st Hes Hret Hws Hsl Hbudget.
  - destruct es; [|discriminate]. destruct ws; [|discriminate].
    cbn. unfold retried. cbn. rewrite Z.add_0_r, app_nil_r.
    destruct st; reflexivity.
  - cbn [attempts] in Hes. cbn [draws] in Hws.
    cbn [iterate]. unfold iteration.
    unfold retried.
    change (advance B (Datatypes.S n) (gen st) (strategy st))
      with (let '(_, g', o') := next B (gen st) (strategy st) in
            advance B n g' o').
    change (state_after func (Datatypes.S n) (world st))
      with (let '(_, s') := func (world st) in state_after func n s').
    destruct (next B (gen st) (strategy st)) as [[step g'] o'].
    destruct (func (world st)) as [res s'].
    destruct es as [|e es]; [discriminate|].
    destruct ws as [|w ws]; [discriminate|].
    cbn [map] in Hes, Hws.
    injection Hes as -> Hes. injection Hws as -> Hws.
    inversion Hret as [|? ? He Hret']; subst.
    inversion Hsl as [|? ? Hw Hsl']; subst.
    unfold retryable in He. rewrite He.
    destruct (i st + 1 =? max_retries self) eqn:Eq.
    { apply Z.eqb_eq in Eq. exfalso.
      apply (Hbudget 0%nat); [lia | cbn; lia]. }
    rewrite (format_2f_sleepable w Hw), (time_sleep_sleepable w Hw).
    rewrite (IH es ws); cbn [world gen strategy i trace]; try assumption.
    + unfold retried. cbn [world gen strategy i trace retry_events].
      f_equal. f_equal; [lia|]. rewrite <- app_assoc. reflexivity.
    + intros k Hk. specialize (Hbudget (Datatypes.S k)). lia.
Qed.









(** With the budget [n] iterations away and a strategy that gives [n] waits,
    the loop is left within [n] iterations and not by running off its end;
    when the waits can be slept it is left through one of the exits that hand
    over what the last call gave. *)
Lemma leaves_within (n : nat) (ws : list number) (st : loop_state) :
  (1 <= n)%nat ->
  i st + Z.of_nat n = max_retries self ->
  draws B n (gen st) (strategy st) = map Yield ws ->
  exists res : result,
    iterate func self n st = inr res
    /\ how res <> CriticalBug
    /\ (Forall sleepable ws ->
        from_operation (how res) = true
        /\ exists tr : list (event R),
            events res = tr ++ [Attempt (outcome (how res))]).
Proof.
  revert ws st. induction n as [|n IH]; intros ws st Hn Hi Hws; [lia|].
  cbn [draws] in Hws. cbn [iterate]. unfold iteration.
  destruct (next B (gen st) (strategy st)) as [[step g'] o'].
  destruct ws as [|w ws]; [discriminate|].
  cbn [map] in Hws. injection Hws as -> Hws.
  assert (Hlast : forall tr : list (event R) , forall x : op_result R,
             exists tr', (tr ++ [Draw (Yield w); Attempt x]) = tr' ++ [Attempt x]).
  { intros tr x. exists (tr ++ [Draw (Yield w)]). now rewrite <- app_assoc. }
  destruct (func (world st)) as [[r | e] s'].
  - eexists; split; [reflexivity|]. split; [discriminate|].
    intros _. split; [reflexivity|]. apply Hlast.
  - destruct (isinstance e (retry_on_exceptions self)).
    + destruct (i st + 1 =? max_retries self) eqn:Eq.
      * eexists; split; [reflexivity|]. split; [discriminate|].
        intros _. split; [reflexivity|]. apply Hlast.
      * apply Z.eqb_neq in Eq.
        destruct (format_2f w) as [err | []] eqn:Efm.
        { eexists; split; [reflexivity|]. split; [discriminate|].
          intros Hsl. inversion Hsl as [|? ? Hw _]; subst.
          rewrite (format_2f_sleepable w Hw) in Efm. discriminate. }
        destruct (time_sleep w) as [err | []] eqn:Esl.
        -- eexists; split; [reflexivity|]. split; [discriminate|].
           intros Hsl. inversion Hsl as [|? ? Hw _]; subst.
           rewrite (time_sleep_sleepable w Hw) in Esl. discriminate.
        -- destruct (IH ws {| i := i st + 1; gen := g'; strategy := o';
                              world := s';
                              trace := trace st
                                       ++ [Draw (Yield w); Attempt (Raises e);
                                           Sleep w] |})
             as (res & Hres & Hnc & Hop); cbn [i gen strategy];
             try assumption; try lia.
           exists res. split; [exact Hres|]. split; [exact Hnc|].
           intros Hsl. inversion Hsl; subst. apply Hop. assumption.
    + eexists; split; [reflexivity|]. split; [discriminate|].
      intros _. split; [reflexivity|]. apply Hlast.
Qed.






End RetryFacts.

(** C9.  An empty list for [retry_on_exceptions] builds the same decorator as
    [None]: the classes caught are [(Exception,)], so an error of any class
    that derives from [Exception] is retryable. *)
Theorem empty_list_is_match_all (B : BackoffStrategy) (max_retries : Z)
    (backoff_strategy : Obj B) :
  let empty := RetryOnException.init B max_retries (Some []) backoff_strategy in
  let none := RetryOnException.init B max_retries None backoff_strategy in
  empty = none
  /\ RetryOnException.retry_on_exceptions empty = [Exception]
  /\ forall e : exc,
      issubclass (exc_type e) Exception = true ->
      RetryOnException.retryable empty e.
Proof.
  intros empty none. split; [reflexivity|]. split; [reflexivity|].
  intros e He. unfold RetryOnException.retryable, isinstance.
  cbn [empty RetryOnException.init RetryOnException.retry_on_exceptions existsb].
  rewrite He. reflexivity.
Qed.

Lemma empty_list_is_match_all_witness :
  RetryOnException.retryable
    (RetryOnException.init NoWait 5 (Some []) tt) (value_error 1).
Proof.
  apply (empty_list_is_match_all NoWait 5 tt). reflexivity.
Defined.

(** A list with a class in it is kept as it is, and then an error outside it
    is not retryable; [KeyboardInterrupt] is outside [Exception]. *)
Example listed_classes_only :
  isinstance (file_not_found_error 1)
    (RetryOnException.retry_on_exceptions test_policy) = false
  /\ isinstance {| exc_type := KeyboardInterrupt; exc_args := "" |}
       (RetryOnException.retry_on_exceptions
          (RetryOnException.init NoWait 5 None tt)) = false
  /\ isinstance {| exc_type := UserDefined "TeapotResponse" Exception;
                   exc_args := "" |}
       (RetryOnException.retry_on_exceptions
          (RetryOnException.init NoWait 5 None tt)) = true.
Proof. repeat split. Qed.

(** ** The strategies and callables of the tests *)

Lemma NoWait_waits (n : nat) :
  waits NoWait n tt = map Yield (repeat (PyInt 0) n).
Proof.
  unfold waits. cbn [call NoWait].
  induction n as [|n IH]; [reflexivity|].
  cbn [draws repeat map]. cbn [next NoWait]. f_equal. exact IH.
Qed.









(** ** The scenarios of the test suite and of the docstrings *)

Example doctest_exponential_backoff :
  first_values ExponentialBackoff.class 6
    (ExponentialBackoff.init (PyInt 1) (PyInt 0) (PyInt 10))
  = [PyInt 1; PyInt 2; PyInt 4; PyInt 8; PyInt 10; PyInt 10].
Proof. reflexivity. Qed.

Example test_strategy_respects_minimum_and_maximum_wait_times :
  first_values ExponentialBackoff.class 5
    (ExponentialBackoff.init (PyInt 1) (PyInt 3) (PyInt 5))
  = [PyInt 3; PyInt 3; PyInt 4; PyInt 5; PyInt 5].
Proof. reflexivity. Qed.

Example test_strategy_scales_up_wait_times_by_base_factor :
  first_values ExponentialBackoff.class 5
    (ExponentialBackoff.init (PyInt 3) (PyInt 0) (PyInt 100))
  = [PyInt 3; PyInt 6; PyInt 12; PyInt 24; PyInt 48].
Proof. reflexivity. Qed.

Example test_jitter_respects_minimum_wait_time :
  first_values (ExponentialBackoffWithJitter.class unit) 3
    (ExponentialBackoffWithJitter.init unit (PyInt 1) (PyInt 1) (PyInt 5)
       (fun s _ _ => (PyInt (-1), s)) tt)
  = [PyInt 1; PyInt 1; PyInt 1].
Proof. reflexivity. Qed.

Example test_jitter_respects_minimum_and_maximum_wait_times :
  first_values (ExponentialBackoffWithJitter.class unit) 5
    (ExponentialBackoffWithJitter.init unit (PyInt 1) (PyInt 3) (PyInt 5)
       (fun s _ mx => (mx, s)) tt)
  = [PyInt 3; PyInt 3; PyInt 4; PyInt 5; PyInt 5].
Proof. reflexivity. Qed.

(** Bounds given as floats with an integer base: the selection keeps the
    object that wins the comparison. *)
Example float_bounds :
  first_values ExponentialBackoff.class 4
    (ExponentialBackoff.init (PyInt 1) (PyFloat (1 # 2)) (PyFloat (5 # 2)))
  = [PyInt 1; PyInt 2; PyFloat (5 # 2); PyFloat (5 # 2)].
Proof. reflexivity. Qed.

(** Two iterators of one instance: the second starts at the counter the first
    left, so it repeats the value the first gave last, and each resumption of
    either moves the counter the other one reads. *)
Example two_iterators_share_the_counter :
  let s0 := ExponentialBackoff.default in
  let '(a1, g1, s1) := ExponentialBackoff.next ExponentialBackoff.NotStarted s0 in
  let '(a2, g1, s2) := ExponentialBackoff.next g1 s1 in
  let '(a3, g1, s3) := ExponentialBackoff.next g1 s2 in
  let '(b1, g2, s4) := ExponentialBackoff.next ExponentialBackoff.NotStarted s3 in
  let '(b2, g2, s5) := ExponentialBackoff.next g2 s4 in
  let '(a4, g1, s6) := ExponentialBackoff.next g1 s5 in
  [a1; a2; a3; b1; b2; a4]
  = map Yield [PyInt 1; PyInt 2; PyInt 4; PyInt 4; PyInt 8; PyInt 16]
  /\ map ExponentialBackoff.counter [s0; s1; s2; s3; s4; s5; s6]
     = [0; 0; 1; 2; 2; 3; 4].
Proof. split; reflexivity. Qed.

Example test_succeeds_on_third_attempt_multiple_errors :
  option_map (fun res => RetryOnException.outcome (RetryOnException.how res))
    (RetryOnException.wrapped (works_on_nth_attempt 5 odd_even_error "amp")
       test_policy 1 5)
  = Some (Returns ("amp"%string, 5)).
Proof. reflexivity. Qed.

(** A strategy that yields a negative wait makes [time.sleep] raise. *)
Example negative_wait_fails_in_sleep :
  option_map (fun res => RetryOnException.outcome (RetryOnException.how res))
    (RetryOnException.wrapped (always_raises (value_error 1))
       (RetryOnException.init ExponentialBackoff.class 5 None
          (ExponentialBackoff.init (PyInt 1) (PyInt (-5)) (PyInt (-1))))
       tt 5)
  = Some (Raises {| exc_type := ValueError;
                    exc_args := "sleep length must be non-negative" |}).
Proof. reflexivity. Qed.

(** A float base makes the first draw of the loop raise, before the operation
    is called at all. *)
Example float_base_fails_before_first_attempt :
  option_map (fun res => (RetryOnException.outcome (RetryOnException.how res),
                          RetryOnException.calls (RetryOnException.events res)))
    (RetryOnException.wrapped (always_raises (value_error 1))
       (RetryOnException.init ExponentialBackoff.class 5 None
          (ExponentialBackoff.init (PyFloat (3 # 2)) (PyInt 0) (PyInt 30)))
       tt 5)
  = Some (Raises {| exc_type := TypeError;
                    exc_args :=
                      "unsupported operand type(s) for <<: 'float' and 'int'" |},
          0%nat).
Proof. reflexivity. Qed.

(** * Further properties of the code *)

(** ** ExponentialBackoff *)

Lemma clamp_inverted (raw lo hi : number) :
  (hi < lo)%num -> ExponentialBackoff.clamp raw lo hi = lo.
Proof. intro H. num_cases; try reflexivity; lra. Qed.

Lemma clamp_piecewise (raw lo hi : number) :
  ((lo < raw)%num -> (raw <= hi)%num -> ExponentialBackoff.clamp raw lo hi = raw)
  /\ ((hi < raw)%num -> (lo < hi)%num -> ExponentialBackoff.clamp raw lo hi = hi)
  /\ ((raw <= lo)%num -> (raw <= hi)%num -> ExponentialBackoff.clamp raw lo hi = lo).
Proof.
  repeat split; intros H1 H2; num_cases; try reflexivity; lra.
Qed.

Section MoreExponentialBackoff.

Import ExponentialBackoff.

(** X1.  On an instance with an integer base [b] whose counter is at [c >= 0],
    the [n]-th value of a new iterator is [max(min_wait, min(b * 2^(c+n),
    max_wait))]: the shift is the doubling of the docstring, for every integer
    base (zero and negative ones too) and whatever the bounds are. *)
Theorem new_iterator_values (self : t) (b : Z) (n : nat) :
  base self = PyInt b -> 0 <= counter self ->
  nth_value class n self
  = Yield (py_max (min_wait_seconds self)
             (py_min (PyInt (b * 2 ^ (counter self + Z.of_nat n)))
                (max_wait_seconds self))).
Proof. intros Hb Hc. exact (nth_value_from_counter self b n Hb Hc). Qed.

Lemma new_iterator_values_witness :
  nth_value class 1 (set_counter (init (PyInt 3) (PyInt 0) (PyInt 100)) 2)
  = Yield (PyInt 24).
Proof.
  rewrite (new_iterator_values _ 3 1); [reflexivity | reflexivity | cbn; lia].
Defined.

(** X2.  With a float base the iterator is dead on arrival: the first
    [next()] raises the [TypeError] of [<<], the instance is left as it was,
    and every later [next()] finds the iterator exhausted. *)
Theorem float_base_iterator_is_dead (self : t) (x : Q) :
  base self = PyFloat x ->
  next NotStarted self = (GenRaise shift_type_error, Finished, self)
  /\ nth_value class 0 self = GenRaise shift_type_error
  /\ forall n : nat, nth_value class (S n) self = Exhausted.
Proof.
  intros Hb.
  assert (H0 : next NotStarted self = (GenRaise shift_type_error, Finished, self)).
  { cbn [next]. unfold run_to_yield. rewrite (produce_float _ x Hb). reflexivity. }
  split; [exact H0|]. split.
  - change (nth_value class 0 self) with (fst (fst (next NotStarted self))).
    rewrite H0. reflexivity.
  - intros n.
    change (nth_value class (S n) self)
      with (let '(g', o') :=
              (let '(_, g, o) := next NotStarted self in advance class n g o) in
            fst (fst (next g' o'))).
    rewrite H0, advance_finished. reflexivity.
Qed.

Lemma float_base_iterator_is_dead_witness :
  nth_value class 0 (init (PyFloat (1 # 2)) (PyInt 0) (PyInt 30))
  = GenRaise shift_type_error
  /\ nth_value class 3 (init (PyFloat (1 # 2)) (PyInt 0) (PyInt 30)) = Exhausted.
Proof.
  destruct (float_base_iterator_is_dead
              (init (PyFloat (1 # 2)) (PyInt 0) (PyInt 30)) (1 # 2) eq_refl)
    as (_ & H0 & Hn).
  split; [exact H0 | exact (Hn 2%nat)].
Defined.

(** X3.  With an integer base and [min_wait <= max_wait], every value of a new
    iterator lies between the two bounds. *)
Theorem values_within_bounds (self : t) (b : Z) (n : nat) :
  base self = PyInt b -> 0 <= counter self ->
  (min_wait_seconds self <= max_wait_seconds self)%num ->
  exists v : number,
    nth_value class n self = Yield v
    /\ (min_wait_seconds self <= v)%num /\ (v <= max_wait_seconds self)%num.
Proof.
  intros Hb Hc Hbounds. rewrite (nth_value_from_counter self b n Hb Hc).
  eexists; split; [reflexivity|]. split.
  - apply clamp_ge_min.
  - apply clamp_le_max. exact Hbounds.
Qed.

Lemma values_within_bounds_witness :
  exists v : number,
    nth_value class 7 (init (PyInt 1) (PyFloat (1 # 2)) (PyInt 30)) = Yield v
    /\ (PyFloat (1 # 2) <= v)%num /\ (v <= PyInt 30)%num.
Proof.
  apply (values_within_bounds (init (PyInt 1) (PyFloat (1 # 2)) (PyInt 30)) 1 7).
  - reflexivity.
  - cbn; lia.
  - now vm_compute.
Defined.

(** X4.  With the bounds the wrong way round ([max_wait < min_wait]), which the
    constructor accepts, every value is [min_wait] itself: the floor is applied
    last and wins over the cap. *)
Theorem inverted_bounds_give_the_floor (self : t) (b : Z) (n : nat) :
  base self = PyInt b -> 0 <= counter self ->
  (max_wait_seconds self < min_wait_seconds self)%num ->
  nth_value class n self = Yield (min_wait_seconds self).
Proof.
  intros Hb Hc Hinv. rewrite (nth_value_from_counter self b n Hb Hc).
  rewrite clamp_inverted by exact Hinv. reflexivity.
Qed.

Lemma inverted_bounds_give_the_floor_witness :
  nth_value class 4 (init (PyInt 1) (PyInt 10) (PyInt 2)) = Yield (PyInt 10).
Proof.
  apply (inverted_bounds_give_the_floor (init (PyInt 1) (PyInt 10) (PyInt 2)) 1 4).
  - reflexivity.
  - cbn; lia.
  - now vm_compute.
Defined.

(** X5.  Which of the three objects a value is.  With an integer base and
    [raw = b * 2^(c+n)]: strictly above the floor and at most the cap it is the
    integer [raw]; above the cap (the cap being above the floor) it is the
    [max_wait] object; at or below both bounds it is the [min_wait] object. *)
Theorem value_is_raw_cap_or_floor (self : t) (b : Z) (n : nat) :
  base self = PyInt b -> 0 <= counter self ->
  let raw := PyInt (b * 2 ^ (counter self + Z.of_nat n)) in
  let lo := min_wait_seconds self in
  let hi := max_wait_seconds self in
  ((lo < raw)%num -> (raw <= hi)%num -> nth_value class n self = Yield raw)
  /\ ((hi < raw)%num -> (lo < hi)%num -> nth_value class n self = Yield hi)
  /\ ((raw <= lo)%num -> (raw <= hi)%num -> nth_value class n self = Yield lo).
Proof.
  intros Hb Hc raw lo hi. rewrite (nth_value_from_counter self b n Hb Hc).
  destruct (clamp_piecewise raw lo hi) as (H1 & H2 & H3).
  repeat split; intros Ha Hb'; f_equal; auto.
Qed.

Lemma value_is_raw_cap_or_floor_witness :
  let self := init (PyInt 1) (PyFloat (5 # 2)) (PyFloat (11 # 2)) in
  nth_value class 2 self = Yield (PyInt 4)
  /\ nth_value class 3 self = Yield (PyFloat (11 # 2))
  /\ nth_value class 1 self = Yield (PyFloat (5 # 2)).
Proof.
  intro self. split; [|split].
  - apply (proj1 (value_is_raw_cap_or_floor self 1 2 eq_refl ltac:(cbn; lia)));
      now vm_compute.
  - apply (proj1 (proj2 (value_is_raw_cap_or_floor self 1 3 eq_refl
                           ltac:(cbn; lia)))); now vm_compute.
  - apply (proj2 (proj2 (value_is_raw_cap_or_floor self 1 1 eq_refl
                           ltac:(cbn; lia)))); now vm_compute.
Defined.

(** X6.  A second iterator takes up where the first one stopped, one step
    back: after [k + 1] values have been taken from one iterator of an
    instance, the [n]-th value of a new iterator of that instance is the
    [(k + n)]-th value the first one would have given, so its first value
    repeats the last value taken. *)
Theorem second_iterator_repeats_last_value (self : t) (b : Z) (k n : nat) :
  base self = PyInt b -> 0 <= counter self ->
  let self' := snd (advance class (S k) NotStarted self) in
  counter self' = counter self + Z.of_nat k
  /\ nth_value class n self' = nth_value class (k + n) self
  /\ nth_value class 0 self' = nth_value class k self.
Proof.
  intros Hb Hc self'.
  assert (Hs : self' = set_counter self (counter self + Z.of_nat k)).
  { unfold self'. rewrite (advance_not_started self b k Hb Hc). reflexivity. }
  assert (Hgen : forall m : nat,
             nth_value class m self' = nth_value class (k + m) self).
  { intros m. rewrite Hs.
    rewrite (nth_value_from_counter _ b m) by (cbn; first [assumption | lia]).
    rewrite (nth_value_from_counter self b (k + m) Hb Hc).
    unfold set_counter; cbn [counter min_wait_seconds max_wait_seconds].
    replace (counter self + Z.of_nat k + Z.of_nat m)
      with (counter self + Z.of_nat (k + m)) by lia.
    reflexivity. }
  split; [rewrite Hs; reflexivity|]. split; [apply Hgen|].
  rewrite Hgen. rewrite Nat.add_0_r. reflexivity.
Qed.

Lemma second_iterator_repeats_last_value_witness :
  let self' := snd (advance class 3 NotStarted default) in
  counter self' = 2
  /\ nth_value class 1 self' = nth_value class 3 default
  /\ nth_value class 0 self' = nth_value class 2 default.
Proof.
  apply (second_iterator_repeats_last_value default 1 2 1).
  - reflexivity.
  - cbn; lia.
Defined.

(** X7.  Iterating never writes the configuration: after any number of
    [next()] calls on any frame, [base], [min_wait_seconds] and
    [max_wait_seconds] are what they were, and the counter has gone up by at
    most one per call and never down. *)
Theorem iterating_only_moves_the_counter_up (n : nat) (f : frame) (self : t) :
  let self' := snd (advance class n f self) in
  base self' = base self
  /\ min_wait_seconds self' = min_wait_seconds self
  /\ max_wait_seconds self' = max_wait_seconds self
  /\ counter self <= counter self' <= counter self + Z.of_nat n.
Proof.
  revert f self. induction n as [|n IH]; intros f self.
  - cbn. repeat split; lia.
  - change (advance class (S n) f self)
      with (let '(_, g', o') := next f self in advance class n g' o').
    destruct (next f self) as [[st g'] o'] eqn:E.
    pose proof (next_keeps_configuration f self) as Hcfg.
    rewrite E in Hcfg. cbn [snd] in Hcfg. destruct Hcfg as (Hb & Hmin & Hmax).
    assert (Hcnt : counter self <= counter o' <= counter self + 1).
    { destruct f; cbn [next] in E; unfold run_to_yield in E.
      - destruct (produce self); injection E as _ _ <-; lia.
      - destruct (produce (set_counter self (counter self + 1)));
          injection E as _ _ <-; cbn; lia.
      - injection E as _ _ <-. lia. }
    specialize (IH g' o'). cbn zeta in IH. destruct IH as (Hb' & Hmin' & Hmax' & Hc').
    repeat split; try congruence; lia.
Qed.

End MoreExponentialBackoff.

(** ** ExponentialBackoffWithJitter *)

Lemma py_max_idempotent (a x : number) : py_max a (py_max a x) = py_max a x.
Proof.
  unfold py_max, py_gt. destruct (py_lt a x) eqn:E.
  - rewrite E. reflexivity.
  - destruct (py_lt a a); reflexivity.
Qed.

Section MoreJitter.

Import ExponentialBackoffWithJitter.

Variable Rand : Type.

(** X8.  Whatever the random source returns (negative numbers, numbers above
    its upper argument), with an integer base every [next()] of a new jitter
    iterator gives a value, and the value is at least [min_wait_seconds]. *)
Theorem jitter_floor_for_any_random_source (self : t Rand) (b : Z) (n : nat) :
  ExponentialBackoff.base (exponential_backoff Rand self) = PyInt b ->
  0 <= ExponentialBackoff.counter (exponential_backoff Rand self) ->
  exists ws : list number,
    waits (class Rand) n self = map Yield ws
    /\ Forall (fun w => (min_wait_seconds Rand self <= w)%num) ws.
Proof.
  intros Hb Hc.
  destruct (jitter_draws Rand n NotStarted self b Hb Hc) as (ws & Hws & Hall);
    [cbn; discriminate|].
  exists ws. split; [exact Hws | exact Hall].
Qed.

(** One [next()] of the jitter iterator against one [next()] of the iterator it
    holds, when the random source returns its upper argument. *)
Lemma upper_source_step (f : frame) (self : t Rand) :
  random_number_gen Rand self = returns_upper Rand ->
  same_floor Rand self ->
  let '(st, f', self') := next Rand f self in
  let '(st_e, g', eb') :=
    ExponentialBackoff.next (inner_frame f) (exponential_backoff Rand self) in
  st = st_e
  /\ inner_frame f' = g'
  /\ exponential_backoff Rand self' = eb'
  /\ random_number_gen Rand self' = returns_upper Rand
  /\ same_floor Rand self'.
Proof.
  intros Hrng Hfloor.
  assert (Hturn : forall (inner : ExponentialBackoff.frame) (o : t Rand),
             random_number_gen Rand o = returns_upper Rand ->
             same_floor Rand o ->
             let '(st, f', self') := loop_turn Rand inner o in
             let '(st_e, g', eb') :=
               ExponentialBackoff.next inner (exponential_backoff Rand o) in
             st = st_e
             /\ inner_frame f' = g'
             /\ exponential_backoff Rand self' = eb'
             /\ random_number_gen Rand self' = returns_upper Rand
             /\ same_floor Rand self').
  { intros inner o Ho Hfl. unfold loop_turn.
    pose proof (next_keeps_configuration inner (exponential_backoff Rand o))
      as (_ & Hmin & _).
    destruct (ExponentialBackoff.next inner (exponential_backoff Rand o))
      as [[[u | | e] g'] eb'] eqn:E; cbn [snd] in Hmin.
    - rewrite Ho. unfold returns_upper.
      destruct (exponential_value_is_clamped _ _ _ _ _ E) as [raw ->].
      unfold same_floor in *. rewrite Hfl.
      unfold ExponentialBackoff.clamp. rewrite py_max_idempotent.
      cbn [inner_frame exponential_backoff update random_number_gen
           min_wait_seconds].
      repeat split; try assumption. congruence.
    - assert (g' = ExponentialBackoff.Finished) as ->.
      { destruct inner; cbn [ExponentialBackoff.next] in E;
          unfold ExponentialBackoff.run_to_yield in E;
          try (destruct (ExponentialBackoff.produce _); discriminate).
        now injection E as <- _. }
      unfold same_floor in *.
      cbn [inner_frame exponential_backoff update random_number_gen
           min_wait_seconds].
      repeat split; try assumption. congruence.
    - assert (g' = ExponentialBackoff.Finished) as ->.
      { destruct inner; cbn [ExponentialBackoff.next] in E;
          unfold ExponentialBackoff.run_to_yield in E;
          try discriminate;
          destruct (ExponentialBackoff.produce _); try discriminate;
          now injection E as _ <- _. }
      unfold same_floor in *.
      cbn [inner_frame exponential_backoff update random_number_gen
           min_wait_seconds].
      repeat split; try assumption. congruence. }
  destruct f as [| inner |]; cbn [next inner_frame ExponentialBackoff.call].
  - apply (Hturn ExponentialBackoff.NotStarted
             (update Rand self (exponential_backoff Rand self) (rand Rand self)));
      assumption.
  - apply Hturn; assumption.
  - repeat split; assumption.
Qed.

Lemma upper_source_draws (n : nat) (f : frame) (self : t Rand) :
  random_number_gen Rand self = returns_upper Rand ->
  same_floor Rand self ->
  draws (class Rand) n f self
  = draws ExponentialBackoff.class n (inner_frame f)
      (exponential_backoff Rand self).
Proof.
  revert f self. induction n as [|n IH]; intros f self Hrng Hfloor;
    [reflexivity|].
  change (draws (class Rand) (S n) f self)
    with (let '(st, g', o') := next Rand f self in
          st :: draws (class Rand) n g' o').
  change (draws ExponentialBackoff.class (S n) (inner_frame f)
            (exponential_backoff Rand self))
    with (let '(st, g', o') :=
            ExponentialBackoff.next (inner_frame f)
              (exponential_backoff Rand self) in
          st :: draws ExponentialBackoff.class n g' o').
  pose proof (upper_source_step f self Hrng Hfloor) as Hstep.
  destruct (next Rand f self) as [[st f'] self'].
  destruct (ExponentialBackoff.next (inner_frame f)
              (exponential_backoff Rand self)) as [[st_e g'] eb'].
  destruct Hstep as (-> & <- & <- & Hrng' & Hfloor').
  f_equal. apply IH; assumption.
Qed.

(** X9.  With a random source that returns its upper argument (the source the
    tests inject), a jitter strategy gives step for step what an
    [ExponentialBackoff] with the same base and bounds gives, values and
    failures alike. *)
Theorem jitter_with_upper_source_is_exponential
    (b min_wait max_wait : number) (seed : Rand) (n : nat) :
  waits (class Rand) n
    (init Rand b min_wait max_wait (returns_upper Rand) seed)
  = waits ExponentialBackoff.class n
      (ExponentialBackoff.init b min_wait max_wait).
Proof.
  apply (upper_source_draws n NotStarted
           (init Rand b min_wait max_wait (returns_upper Rand) seed));
    reflexivity.
Qed.

Lemma jitter_advance_finished (n : nat) (self : t Rand) :
  advance (class Rand) n Finished self = (Finished, self).
Proof. induction n as [|n IH]; [reflexivity | exact IH]. Qed.

(** X10.  A jitter strategy built with a float base fails like the strategy it
    holds: the first [next()] raises the [TypeError] of [<<] without the
    random source being consulted, and the iterator is exhausted afterwards. *)
Theorem jitter_float_base_is_dead (x : Q) (min_wait max_wait : number)
    (rng : Rand -> number -> number -> number * Rand) (seed : Rand) :
  let self := init Rand (PyFloat x) min_wait max_wait rng seed in
  nth_value (class Rand) 0 self = GenRaise shift_type_error
  /\ rand Rand (snd (next Rand NotStarted self)) = seed
  /\ forall n : nat, nth_value (class Rand) (S n) self = Exhausted.
Proof.
  intros self. split; [reflexivity|]. split; [reflexivity|].
  intros n.
  change (nth_value (class Rand) (S n) self)
    with (let '(g', o') :=
            (let '(_, g, o) := next Rand NotStarted self in
             advance (class Rand) n g o) in
          fst (fst (next Rand g' o'))).
  change (next Rand NotStarted self)
    with (GenRaise shift_type_error, Finished,
          update Rand self (ExponentialBackoff.init (PyFloat x) min_wait max_wait)
            seed).
  cbv beta iota. rewrite jitter_advance_finished. reflexivity.
Qed.

(** X11.  The jitter strategy's own [counter] is dead state: iterating, for
    any number of [next()] calls on any frame, never writes it, nor [base],
    [min_wait_seconds] or the random source; only the held strategy and the
    state of the random source move. *)
Theorem jitter_own_counter_is_never_written (n : nat) (f : frame)
    (self : t Rand) :
  let self' := snd (advance (class Rand) n f self) in
  counter Rand self' = counter Rand self
  /\ base Rand self' = base Rand self
  /\ min_wait_seconds Rand self' = min_wait_seconds Rand self
  /\ random_number_gen Rand self' = random_number_gen Rand self.
Proof.
  revert f self. induction n as [|n IH]; intros f self.
  - cbn. repeat split.
  - change (advance (class Rand) (S n) f self)
      with (let '(_, g', o') := next Rand f self in
            advance (class Rand) n g' o').
    assert (Hstep : let o' := snd (next Rand f self) in
               counter Rand o' = counter Rand self
               /\ base Rand o' = base Rand self
               /\ min_wait_seconds Rand o' = min_wait_seconds Rand self
               /\ random_number_gen Rand o' = random_number_gen Rand self).
    { destruct f as [| inner |]; cbn [next ExponentialBackoff.call];
        unfold loop_turn;
        cbn [exponential_backoff update rand random_number_gen];
        try (destruct (ExponentialBackoff.next _ _) as [[[u | | e] g] eb];
             try destruct (random_number_gen Rand self _ _ _));
        cbn; repeat split. }
    destruct (next Rand f self) as [[st g'] o']. cbn [snd] in Hstep.
    specialize (IH g' o'). cbn zeta in *.
    destruct IH as (H1 & H2 & H3 & H4). destruct Hstep as (K1 & K2 & K3 & K4).
    repeat split; congruence.
Qed.

End MoreJitter.

Lemma jitter_floor_for_any_random_source_witness :
  exists ws : list number,
    waits (ExponentialBackoffWithJitter.class unit) 4
      (ExponentialBackoffWithJitter.init unit (PyInt 1) (PyInt 2) (PyInt 5)
         (fun r _ _ => (PyInt (-7), r)) tt)
    = map Yield ws
    /\ Forall (fun w => (PyInt 2 <= w)%num) ws.
Proof.
  apply (jitter_floor_for_any_random_source unit
           (ExponentialBackoffWithJitter.init unit (PyInt 1) (PyInt 2) (PyInt 5)
              (fun r _ _ => (PyInt (-7), r)) tt) 1 4).
  - reflexivity.
  - cbn; lia.
Defined.

(** ** RetryOnException *)

Section MoreRetry.

Import RetryOnException.

Variable B : BackoffStrategy.
Variables S R : Type.
Variable func : S -> op_result R * S.
Variable self : t B.

Local Abbreviation loop_state := (loop_state B S R).
Local Abbreviation result := (result B S R).

Lemma draw_count_app (tr tr' : list (event R)) :
  draw_count (tr ++ tr') = (draw_count tr + draw_count tr')%nat.
Proof. unfold draw_count. now rewrite filter_app, length_app. Qed.

(** The loop counts its calls in [i], and sleeps once per call it retries. *)
Lemma iterate_within_budget (n : nat) (st : loop_state) (res : result) :
  Z.of_nat (calls (trace st)) = i st ->
  List.length (sleeps (trace st)) = calls (trace st) ->
  i st < max_retries self ->
  iterate func self n st = inr res ->
  Z.of_nat (calls (events res)) <= max_retries self
  /\ Z.of_nat (List.length (sleeps (events res))) <= max_retries self - 1.
Proof.
  revert st. induction n as [|n IH]; intros st Hcalls Hsleeps Hi Hres;
    [discriminate|].
  cbn [iterate] in Hres. unfold iteration in Hres.
  assert (Hend : forall (x : op_result R) (w : number),
             calls (trace st ++ [Draw (Yield w); Attempt x])
             = Datatypes.S (calls (trace st))
             /\ sleeps (trace st ++ [Draw (Yield w); Attempt x])
                = sleeps (trace st)).
  { intros x w. rewrite calls_app, sleeps_app. unfold calls; cbn.
    rewrite app_nil_r. split; [lia | reflexivity]. }
  assert (Hdraw : forall st' : gen_step,
             calls (trace st ++ [Draw (R := R) st']) = calls (trace st)
             /\ sleeps (trace st ++ [Draw (R := R) st']) = sleeps (trace st)).
  { intros st'. rewrite calls_app, sleeps_app. unfold calls; cbn.
    rewrite app_nil_r. split; [lia | reflexivity]. }
  destruct (next B (gen st) (strategy st)) as [[[w | | e] g'] o'].
  - destruct (func (world st)) as [[r | e] s'].
    + injection Hres as <-. cbn [events].
      destruct (Hend (Returns r) w) as [-> ->]. lia.
    + destruct (isinstance e (retry_on_exceptions self)).
      * destruct (i st + 1 =? max_retries self) eqn:Eq.
        -- injection Hres as <-. cbn [events].
           destruct (Hend (Raises e) w) as [-> ->]. lia.
        -- apply Z.eqb_neq in Eq.
           destruct (format_2f w).
           { injection Hres as <-. cbn [events].
             destruct (Hend (Raises e) w) as [-> ->]. lia. }
           destruct (time_sleep w).
           ++ injection Hres as <-. cbn [events].
              destruct (Hend (Raises e) w) as [-> ->]. lia.
           ++ apply (IH _) in Hres; [exact Hres | | |];
                cbn [i trace];
                rewrite ?calls_app, ?sleeps_app, ?length_app;
                unfold calls in *; cbn; lia.
      * injection Hres as <-. cbn [events].
        destruct (Hend (Raises e) w) as [-> ->]. lia.
  - injection Hres as <-. cbn [events].
    destruct (Hdraw Exhausted) as [-> ->]. lia.
  - injection Hres as <-. cbn [events].
    destruct (Hdraw (GenRaise e)) as [-> ->]. lia.
Qed.

(** X12.  With [max_retries >= 1], whatever the operation and the strategy do,
    a wrapped call that ends has called the operation at most [max_retries]
    times and has slept at most [max_retries - 1] times. *)
Theorem calls_never_exceed_the_budget (s : S) (fuel : nat) (res : result) :
  1 <= max_retries self ->
  wrapped func self s fuel = Some res ->
  Z.of_nat (calls (events res)) <= max_retries self
  /\ Z.of_nat (List.length (sleeps (events res))) <= max_retries self - 1.
Proof.
  intros Hmax Hres. unfold wrapped, start in Hres.
  destruct (call B (backoff_strategy self)) as [g0 o0].
  destruct (iterate func self fuel _) as [st | res'] eqn:E; [discriminate|].
  injection Hres as ->.
  apply (iterate_within_budget fuel _ res) in E; [exact E | | |]; cbn; lia.
Qed.


(** X14.  When the first [next()] on the strategy's iterator raises, the
    wrapped call raises that exception and the operation is never called. *)
Theorem strategy_error_comes_before_the_first_call (s : S) (e : exc)
    (fuel : nat) :
  nth_value B 0 (backoff_strategy self) = GenRaise e ->
  (1 <= fuel)%nat ->
  exists res : result,
    wrapped func self s fuel = Some res
    /\ how res = StrategyFailed e
    /\ outcome (how res) = Raises e
    /\ calls (events res) = 0%nat
    /\ final_world res = s.
Proof.
  intros He Hfuel. unfold wrapped, start. unfold nth_value in He.
  destruct (call B (backoff_strategy self)) as [g0 o0].
  cbn [advance] in He.
  destruct fuel as [|fuel]; [lia|].
  cbn [iterate]. unfold iteration. cbn [gen strategy world trace].
  destruct (next B g0 o0) as [[st g'] o']. cbn [fst] in He. subst st.
  eexists; split; [reflexivity|]. repeat split.
Qed.

(** X15.  A negative first wait turns a retryable failure into the
    [ValueError] of [time.sleep]: when the wait is one the clock can hold,
    the first call raises a retryable error and the budget is not 1, the
    wrapped call raises that [ValueError] after one call, and the error of
    the operation is lost. *)
Theorem negative_wait_replaces_the_error (s : S) (w : number) (e : exc)
    (fuel : nat) :
  nth_value B 0 (backoff_strategy self) = Yield w ->
  (PyInt (- clock_limit_seconds) <= w)%num ->
  (w < PyInt 0)%num ->
  fst (func s) = Raises e ->
  retryable self e ->
  max_retries self <> 1 ->
  (1 <= fuel)%nat ->
  exists res : result,
    wrapped func self s fuel = Some res
    /\ how res = SleepFailed sleep_value_error
    /\ outcome (how res) = Raises sleep_value_error
    /\ calls (events res) = 1%nat
    /\ sleeps (events res) = [].
Proof.
  intros Hw Hclock Hneg He Hret Hmax Hfuel. unfold wrapped, start.
  unfold nth_value in Hw.
  destruct (within_clock_formats_and_fits w Hclock) as [Hfmt Hfits].
  { unfold num_le, num_lt, clock_limit_seconds in *. cbn [to_Q] in *.
    unfold inject_Z in *. lra. }
  destruct (call B (backoff_strategy self)) as [g0 o0].
  cbn [advance] in Hw.
  destruct fuel as [|fuel]; [lia|].
  cbn [iterate]. unfold iteration. cbn [gen strategy world trace i].
  destruct (next B g0 o0) as [[st g'] o']. cbn [fst] in Hw. subst st.
  destruct (func s) as [x s']. cbn [fst] in He. subst x.
  unfold retryable in Hret. rewrite Hret.
  destruct (0 + 1 =? max_retries self) eqn:Eq;
    [apply Z.eqb_eq in Eq; lia|].
  rewrite Hfmt. unfold time_sleep. rewrite Hfits.
  apply py_lt_true in Hneg. rewrite Hneg.
  eexists; split; [reflexivity|]. repeat split.
Qed.

(** X16.  With [max_retries = 1] the decorator adds nothing but the draw of
    one wait: the wrapped call gives what the first call gives, whether it
    returns or raises and whatever it raises, after one call and no sleep. *)
Theorem budget_of_one_is_a_single_call (s : S) (w : number) (fuel : nat) :
  max_retries self = 1 ->
  nth_value B 0 (backoff_strategy self) = Yield w ->
  (1 <= fuel)%nat ->
  exists res : result,
    wrapped func self s fuel = Some res
    /\ outcome (how res) = fst (func s)
    /\ final_world res = snd (func s)
    /\ calls (events res) = 1%nat
    /\ sleeps (events res) = [].
Proof.
  intros Hmax Hw Hfuel. unfold wrapped, start. unfold nth_value in Hw.
  destruct (call B (backoff_strategy self)) as [g0 o0].
  cbn [advance] in Hw.
  destruct fuel as [|fuel]; [lia|].
  cbn [iterate]. unfold iteration. cbn [gen strategy world trace i].
  destruct (next B g0 o0) as [[st g'] o']. cbn [fst] in Hw. subst st.
  destruct (func s) as [[r | e] s']; cbn [fst snd].
  - eexists; split; [reflexivity|]. repeat split.
  - destruct (isinstance e (retry_on_exceptions self)).
    + rewrite Hmax. cbn [Z.eqb Z.add Pos.eqb].
      eexists; split; [reflexivity|]. repeat split.
    + eexists; split; [reflexivity|]. repeat split.
Qed.


(** Where the loop leaves the strategy: after as many [next()] calls as the
    trace has draws; the exits that hand over what the operation gave have
    drawn once per call. *)
Lemma iterate_final_strategy (n : nat) (st : loop_state) (res : result) :
  iterate func self n st = inr res ->
  exists k : nat,
    draw_count (events res) = (draw_count (trace st) + Datatypes.S k)%nat
    /\ final_strategy res
       = snd (advance B (Datatypes.S k) (gen st) (strategy st))
    /\ (from_operation (how res) = true ->
        calls (events res) = (calls (trace st) + Datatypes.S k)%nat).
Proof.
  revert st. induction n as [|n IH]; intros st Hres; [discriminate|].
  cbn [iterate] in Hres. unfold iteration in Hres.
  change (advance B 1 (gen st) (strategy st))
    with (let '(_, g', o') := next B (gen st) (strategy st) in (g', o')).
  assert (Hadv : forall k : nat,
             advance B (Datatypes.S k) (gen st) (strategy st)
             = let '(_, g', o') := next B (gen st) (strategy st) in
               advance B k g' o') by reflexivity.
  destruct (next B (gen st) (strategy st)) as [[[w | | e] g'] o'] eqn:E.
  - destruct (func (world st)) as [[r | e] s'].
    + injection Hres as <-. exists 0%nat. rewrite Hadv.
      cbn [events final_strategy how advance snd].
      rewrite draw_count_app, calls_app. unfold draw_count, calls; cbn.
      repeat split; lia.
    + destruct (isinstance e (retry_on_exceptions self)).
      * destruct (i st + 1 =? max_retries self).
        -- injection Hres as <-. exists 0%nat. rewrite Hadv.
           cbn [events final_strategy how advance snd].
           rewrite draw_count_app, calls_app. unfold draw_count, calls; cbn.
           repeat split; lia.
        -- destruct (format_2f w).
           { injection Hres as <-. exists 0%nat. rewrite Hadv.
             cbn [events final_strategy how advance snd from_operation].
             rewrite draw_count_app. unfold draw_count; cbn.
             repeat split; first [lia | discriminate]. }
           destruct (time_sleep w).
           ++ injection Hres as <-. exists 0%nat. rewrite Hadv.
              cbn [events final_strategy how advance snd from_operation].
              rewrite draw_count_app. unfold draw_count; cbn.
              repeat split; first [lia | discriminate].
           ++ destruct (IH _ Hres) as (k & Hd & Hf & Hc).
              cbn [trace gen strategy] in Hd, Hf, Hc.
              exists (Datatypes.S k). rewrite (Hadv (Datatypes.S k)).
              rewrite draw_count_app in Hd. rewrite calls_app in Hc.
              unfold draw_count, calls in *; cbn in Hd, Hc.
              repeat split; [lia | exact Hf |].
              intros Hop. specialize (Hc Hop). lia.
      * injection Hres as <-. exists 0%nat. rewrite Hadv.
        cbn [events final_strategy how advance snd].
        rewrite draw_count_app, calls_app. unfold draw_count, calls; cbn.
        repeat split; lia.
  - injection Hres as <-. exists 0%nat. rewrite Hadv.
    cbn [events final_strategy how advance snd from_operation].
    rewrite draw_count_app. unfold draw_count; cbn.
    repeat split; first [lia | discriminate].
  - injection Hres as <-. exists 0%nat. rewrite Hadv.
    cbn [events final_strategy how advance snd from_operation].
    rewrite draw_count_app. unfold draw_count; cbn.
    repeat split; first [lia | discriminate].
Qed.

(** X18.  The wrapped call leaves the strategy instance where its iterator
    was after the last wait it drew: one [next()] per iteration, so one per
    call of the operation when the call ends with what the operation gave.
    The wait drawn for the last attempt is drawn although it is never slept. *)
Theorem strategy_is_left_after_the_last_draw (s : S) (fuel : nat)
    (res : result) :
  wrapped func self s fuel = Some res ->
  let '(g0, o0) := call B (backoff_strategy self) in
  (1 <= draw_count (events res))%nat
  /\ final_strategy res = snd (advance B (draw_count (events res)) g0 o0)
  /\ (from_operation (how res) = true ->
      draw_count (events res) = calls (events res)
      /\ List.length (sleeps (events res)) < draw_count (events res))%nat.
Proof.
  intros Hres. unfold wrapped, start in Hres.
  destruct (call B (backoff_strategy self)) as [g0 o0].
  destruct (iterate func self fuel _) as [st | res'] eqn:E; [discriminate|].
  injection Hres as ->.
  destruct (iterate_final_strategy fuel _ res E) as (k & Hd & Hf & Hc).
  cbn [trace gen strategy] in Hd, Hf, Hc.
  change (draw_count (R := R) []) with 0%nat in Hd.
  change (calls (R := R) []) with 0%nat in Hc.
  rewrite Hd. cbn [Nat.add]. split; [lia|]. split; [exact Hf|].
  intros Hop. specialize (Hc Hop). split; [lia|].
  assert (Hsl : forall (n : nat) (st : loop_state) (r : result),
             iterate func self n st = inr r ->
             (List.length (sleeps (trace st)) <= draw_count (trace st))%nat ->
             (List.length (sleeps (events r)) < draw_count (events r))%nat).
  { clear. induction n as [|n IH]; intros st r Hr Hinv; [discriminate|].
    cbn [iterate] in Hr. unfold iteration in Hr.
    destruct (next B (gen st) (strategy st)) as [[[w | | e] g'] o'].
    - destruct (func (world st)) as [[x | e] s'].
      + injection Hr as <-. cbn [events].
        rewrite sleeps_app, draw_count_app, length_app.
        unfold draw_count in *; cbn. lia.
      + destruct (isinstance e (retry_on_exceptions self)).
        * destruct (i st + 1 =? max_retries self).
          -- injection Hr as <-. cbn [events].
             rewrite sleeps_app, draw_count_app, length_app.
             unfold draw_count in *; cbn. lia.
          -- destruct (format_2f w).
             { injection Hr as <-. cbn [events].
               rewrite sleeps_app, draw_count_app, length_app.
               unfold draw_count in *; cbn. lia. }
             destruct (time_sleep w).
             ++ injection Hr as <-. cbn [events].
                rewrite sleeps_app, draw_count_app, length_app.
                unfold draw_count in *; cbn. lia.
             ++ apply (IH _ _ Hr). cbn [trace].
                rewrite sleeps_app, draw_count_app, length_app.
                unfold draw_count in *; cbn. lia.
        * injection Hr as <-. cbn [events].
          rewrite sleeps_app, draw_count_app, length_app.
          unfold draw_count in *; cbn. lia.
    - injection Hr as <-. cbn [events].
      rewrite sleeps_app, draw_count_app, length_app.
      unfold draw_count in *; cbn. lia.
    - injection Hr as <-. cbn [events].
      rewrite sleeps_app, draw_count_app, length_app.
      unfold draw_count in *; cbn. lia. }
  specialize (Hsl fuel _ res E). cbn [trace] in Hsl. rewrite Hd in Hsl.
  apply Hsl. cbn. lia.
Qed.

End MoreRetry.

Lemma calls_never_exceed_the_budget_witness :
  match RetryOnException.wrapped
          (works_on_nth_attempt 10 value_error "fizzbuzz") test_policy 1 9 with
  | Some res =>
      Z.of_nat (RetryOnException.calls (RetryOnException.events res)) <= 5
      /\ Z.of_nat (List.length
                     (RetryOnException.sleeps (RetryOnException.events res)))
         <= 5 - 1
  | None => False
  end.
Proof.
  destruct (RetryOnException.wrapped
              (works_on_nth_attempt 10 value_error "fizzbuzz") test_policy 1 9)
    as [res|] eqn:E.
  - apply (calls_never_exceed_the_budget NoWait Z (string * Z)
             (works_on_nth_attempt 10 value_error "fizzbuzz") test_policy 1 9 res);
      [cbn; lia | exact E].
  - vm_compute in E. discriminate E.
Defined.


Lemma strategy_error_comes_before_the_first_call_witness :
  exists res : RetryOnException.result ExponentialBackoff.class unit unit,
    RetryOnException.wrapped (always_raises (value_error 1))
      (RetryOnException.init ExponentialBackoff.class 5 None
         (ExponentialBackoff.init (PyFloat (3 # 2)) (PyInt 0) (PyInt 30)))
      tt 5 = Some res
    /\ RetryOnException.how res = RetryOnException.StrategyFailed shift_type_error
    /\ RetryOnException.outcome (RetryOnException.how res)
       = Raises shift_type_error
    /\ RetryOnException.calls (RetryOnException.events res) = 0%nat
    /\ RetryOnException.final_world res = tt.
Proof.
  apply (strategy_error_comes_before_the_first_call ExponentialBackoff.class
           unit unit (always_raises (value_error 1))
           (RetryOnException.init ExponentialBackoff.class 5 None
              (ExponentialBackoff.init (PyFloat (3 # 2)) (PyInt 0) (PyInt 30)))
           tt shift_type_error 5).
  - reflexivity.
  - lia.
Defined.

Lemma negative_wait_replaces_the_error_witness :
  exists res : RetryOnException.result ExponentialBackoff.class unit unit,
    RetryOnException.wrapped (always_raises (value_error 1))
      (RetryOnException.init ExponentialBackoff.class 5 None
         (ExponentialBackoff.init (PyInt 1) (PyInt (-5)) (PyInt (-1))))
      tt 5 = Some res
    /\ RetryOnException.how res = RetryOnException.SleepFailed sleep_value_error
    /\ RetryOnException.outcome (RetryOnException.how res)
       = Raises sleep_value_error
    /\ RetryOnException.calls (RetryOnException.events res) = 1%nat
    /\ RetryOnException.sleeps (RetryOnException.events res) = [].
Proof.
  apply (negative_wait_replaces_the_error ExponentialBackoff.class unit unit
           (always_raises (value_error 1))
           (RetryOnException.init ExponentialBackoff.class 5 None
              (ExponentialBackoff.init (PyInt 1) (PyInt (-5)) (PyInt (-1))))
           tt (PyInt (-1)) (value_error 1) 5).
  - reflexivity.
  - now vm_compute.
  - now vm_compute.
  - reflexivity.
  - reflexivity.
  - cbn. lia.
  - lia.
Defined.

Lemma budget_of_one_is_a_single_call_witness :
  exists res : RetryOnException.result NoWait unit unit,
    RetryOnException.wrapped (always_raises (value_error 1))
      (RetryOnException.init NoWait 1 None tt) tt 3 = Some res
    /\ RetryOnException.outcome (RetryOnException.how res)
       = Raises (value_error 1)
    /\ RetryOnException.final_world res = tt
    /\ RetryOnException.calls (RetryOnException.events res) = 1%nat
    /\ RetryOnException.sleeps (RetryOnException.events res) = [].
Proof.
  apply (budget_of_one_is_a_single_call NoWait unit unit
           (always_raises (value_error 1))
           (RetryOnException.init NoWait 1 None tt) tt (PyInt 0) 3).
  - reflexivity.
  - reflexivity.
  - lia.
Defined.


Lemma strategy_is_left_after_the_last_draw_witness :
  match RetryOnException.wrapped
          (works_on_nth_attempt 3 value_error "baz")
          (RetryOnException.init ExponentialBackoff.class 5 None
             ExponentialBackoff.default) 1 5 with
  | Some res =>
      (1 <= draw_count (RetryOnException.events res))%nat
      /\ RetryOnException.final_strategy res
         = snd (advance ExponentialBackoff.class
                  (draw_count (RetryOnException.events res))
                  ExponentialBackoff.NotStarted ExponentialBackoff.default)
      /\ (RetryOnException.from_operation (RetryOnException.how res) = true ->
          draw_count (RetryOnException.events res)
          = RetryOnException.calls (RetryOnException.events res)
          /\ List.length (RetryOnException.sleeps (RetryOnException.events res))
             < draw_count (RetryOnException.events res))%nat
  | None => False
  end.
Proof.
  destruct (RetryOnException.wrapped
              (works_on_nth_attempt 3 value_error "baz")
              (RetryOnException.init ExponentialBackoff.class 5 None
                 ExponentialBackoff.default) 1 5) as [res|] eqn:E.
  - exact (strategy_is_left_after_the_last_draw ExponentialBackoff.class Z
             (string * Z) (works_on_nth_attempt 3 value_error "baz")
             (RetryOnException.init ExponentialBackoff.class 5 None
                ExponentialBackoff.default) 1 5 res E).
  - vm_compute in E. discriminate E.
Defined.

(** ** The decorator with the strategies of the package *)





(** X20.  What a call leaves behind in an [ExponentialBackoff]: when the
    wrapped call ends with what the operation gave after [k] calls, the
    counter of the instance (integer base) has gone up by [k - 1], so the
    next call of the decorated function, which starts a new iterator on the
    same instance, does not start the schedule over. *)
Theorem exponential_counter_after_a_call (S R : Type)
    (func : S -> op_result R * S)
    (self : RetryOnException.t ExponentialBackoff.class) (b : Z) (s : S)
    (fuel : nat) (res : RetryOnException.result ExponentialBackoff.class S R) :
  let eb := RetryOnException.backoff_strategy self in
  ExponentialBackoff.base eb = PyInt b ->
  0 <= ExponentialBackoff.counter eb ->
  RetryOnException.wrapped func self s fuel = Some res ->
  RetryOnException.from_operation (RetryOnException.how res) = true ->
  ExponentialBackoff.counter (RetryOnException.final_strategy res)
  = ExponentialBackoff.counter eb
    + Z.of_nat (RetryOnException.calls (RetryOnException.events res)) - 1.
Proof.
  intros eb Hb Hc Hres Hop. unfold RetryOnException.wrapped in Hres.
  destruct (RetryOnException.iterate func self fuel _) as [st | res'] eqn:E;
    [discriminate|].
  injection Hres as ->.
  destruct (iterate_final_strategy ExponentialBackoff.class S R func self
              fuel _ res E) as (k & _ & Hf & Hcalls).
  specialize (Hcalls Hop).
  change (RetryOnException.calls
            (RetryOnException.trace (RetryOnException.start self s)))
    with 0%nat in Hcalls.
  change (RetryOnException.gen (RetryOnException.start (S := S) (R := R) self s))
    with ExponentialBackoff.NotStarted in Hf.
  change (RetryOnException.strategy
            (RetryOnException.start (S := S) (R := R) self s))
    with eb in Hf.
  rewrite (advance_not_started eb b k Hb Hc) in Hf.
  rewrite Hf, Hcalls. cbn [snd ExponentialBackoff.set_counter
                             ExponentialBackoff.counter]. lia.
Qed.

Lemma exponential_counter_after_a_call_witness :
  match RetryOnException.wrapped
          (works_on_nth_attempt 4 value_error "baz")
          (RetryOnException.init ExponentialBackoff.class 5 None
             ExponentialBackoff.default) 1 5 with
  | Some res =>
      ExponentialBackoff.counter (RetryOnException.final_strategy res)
      = 0 + Z.of_nat (RetryOnException.calls (RetryOnException.events res)) - 1
  | None => False
  end.
Proof.
  destruct (RetryOnException.wrapped
              (works_on_nth_attempt 4 value_error "baz")
              (RetryOnException.init ExponentialBackoff.class 5 None
                 ExponentialBackoff.default) 1 5) as [res|] eqn:E.
  - apply (exponential_counter_after_a_call Z (string * Z)
             (works_on_nth_attempt 4 value_error "baz")
             (RetryOnException.init ExponentialBackoff.class 5 None
                ExponentialBackoff.default) 1 1 5 res).
    + reflexivity.
    + cbn. lia.
    + exact E.
    + vm_compute in E. injection E as <-. reflexivity.
  - vm_compute in E. discriminate E.
Defined.

(** X21.  [RetryOnException()] with nothing given: five attempts, every
    [Exception] retried, a jitter strategy with base 1 and bounds 0 and 30.
    For every operation, and every random source that stays at or below its
    upper argument as [random.uniform] does, the wrapped call ends within
    five iterations, with what the last call of the operation gave: the
    strategy gives a wait at every draw, between 0 and 30, so neither the
    strategy, nor the formatting of the wait, nor [time.sleep] can fail. *)
Theorem default_decorator_ends_within_five_calls (Rand : Type)
    (random_uniform : Rand -> number -> number -> number * Rand) (seed : Rand)
    (S R : Type) (func : S -> op_result R * S) (s : S) :
  stays_below_upper Rand random_uniform ->
  let self :=
    RetryOnException.init_default_strategy Rand random_uniform seed
      RetryOnException.default_max_retries None in
  exists res : RetryOnException.result (ExponentialBackoffWithJitter.class Rand) S R,
    RetryOnException.wrapped func self s 5 = Some res
    /\ RetryOnException.from_operation (RetryOnException.how res) = true
    /\ (RetryOnException.calls (RetryOnException.events res) <= 5)%nat
    /\ exists tr : list (RetryOnException.event R),
        RetryOnException.events res
        = tr ++ [RetryOnException.Attempt
                   (RetryOnException.outcome (RetryOnException.how res))].
Proof.
  intros Hrng self.
  set (jitter := ExponentialBackoffWithJitter.init Rand (PyInt 1) (PyInt 0)
                   (PyInt 30) random_uniform seed).
  assert (Hok : jitter_in_order Rand jitter 1).
  { unfold jitter_in_order. repeat split; try exact Hrng; now vm_compute. }
  destruct (jitter_draws_bounded Rand 5 ExponentialBackoffWithJitter.NotStarted
              jitter 1 Hok) as (ws & Hws & Hall); [cbn; discriminate|].
  set (st0 := RetryOnException.start (S := S) (R := R) self s).
  destruct (leaves_within (ExponentialBackoffWithJitter.class Rand) S R func self
              5 ws st0) as (res & Hres & _ & Hop).
  - lia.
  - reflexivity.
  - exact Hws.
  - exists res. unfold RetryOnException.wrapped. fold st0. rewrite Hres.
    destruct Hop as [Hfrom Htr].
    { apply Forall_forall. intros w Hw. rewrite Forall_forall in Hall.
      destruct (Hall w Hw) as [Hlo Hhi].
      unfold sleepable, num_le, clock_limit_seconds in *.
      cbn [jitter ExponentialBackoffWithJitter.init
           ExponentialBackoffWithJitter.min_wait_seconds
           ExponentialBackoffWithJitter.exponential_backoff
           ExponentialBackoff.init ExponentialBackoff.max_wait_seconds
           to_Q] in *.
      unfold inject_Z in *. split; lra. }
    split; [reflexivity|]. split; [exact Hfrom|]. split; [|exact Htr].
    destruct (iterate_within_budget (ExponentialBackoffWithJitter.class Rand)
                S R func self 5 st0 res) as [Hc _];
      try reflexivity; try exact Hres.
    change (RetryOnException.max_retries self) with 5 in Hc. lia.
Qed.

Lemma default_decorator_ends_within_five_calls_witness :
  exists res : RetryOnException.result
                 (ExponentialBackoffWithJitter.class unit) unit unit,
    RetryOnException.wrapped (always_raises (value_error 1))
      (RetryOnException.init_default_strategy unit (returns_upper unit) tt
         RetryOnException.default_max_retries None) tt 5 = Some res
    /\ RetryOnException.from_operation (RetryOnException.how res) = true
    /\ (RetryOnException.calls (RetryOnException.events res) <= 5)%nat
    /\ exists tr : list (RetryOnException.event unit),
        RetryOnException.events res
        = tr ++ [RetryOnException.Attempt
                   (RetryOnException.outcome (RetryOnException.how res))].
Proof.
  apply (default_decorator_ends_within_five_calls unit (returns_upper unit) tt
           unit unit (always_raises (value_error 1)) tt).
  intros r low high _. unfold returns_upper, num_le. cbn [fst]. lra.
Defined.

(** ** The decorated callable of the tests *)

(** As long as [self.attempts] does not meet [n], each call raises the error
    made from the count and moves the count on by one. *)
Lemma works_on_nth_attempt_failures (n : Z) (error_gen : Z -> exc) (s : string)
    (k : nat) (a : Z) :
  n < a \/ a + Z.of_nat k <= n ->
  RetryOnException.attempts (works_on_nth_attempt n error_gen s) k a
  = map Raises (map (fun j : nat => error_gen (a + Z.of_nat j)) (seq 0 k))
  /\ RetryOnException.state_after (works_on_nth_attempt n error_gen s) k a
     = a + Z.of_nat k.
Proof.
  revert a. induction k as [|k IH]; intros a Ha.
  - cbn. split; [reflexivity | lia].
  - cbn [RetryOnException.attempts RetryOnException.state_after].
    unfold works_on_nth_attempt at 1 3.
    destruct (a =? n) eqn:E; [apply Z.eqb_eq in E; lia|].
    destruct (IH (a + 1)) as [Hat Hst]; [lia|].
    rewrite Hat, Hst. cbn [seq map]. rewrite <- seq_shift, !map_map.
    split; [|lia].
    f_equal; [f_equal; f_equal; lia|].
    apply map_ext. intros j. f_equal. f_equal. lia.
Qed.

Lemma NoWait_waits_snoc (k : nat) :
  waits NoWait (S k) tt = map Yield (repeat (PyInt 0) k ++ [PyInt 0]).
Proof. rewrite NoWait_waits, <- repeat_cons. reflexivity. Qed.

Lemma NoWait_repeat_sleepable (k : nat) : Forall sleepable (repeat (PyInt 0) k).
Proof.
  apply Forall_forall. intros w Hw. apply repeat_spec in Hw as ->.
  now vm_compute.
Qed.

Lemma NoWait_start_draws (S R : Type) (self : RetryOnException.t NoWait)
    (s : S) (k : nat) :
  draws NoWait k
    (RetryOnException.gen (RetryOnException.start (R := R) self s))
    (RetryOnException.strategy (RetryOnException.start (R := R) self s))
  = map Yield (repeat (PyInt 0) k).
Proof.
  unfold RetryOnException.start. cbn [call NoWait].
  cbn [RetryOnException.gen RetryOnException.strategy].
  destruct (RetryOnException.backoff_strategy self). exact (NoWait_waits k).
Qed.

(** X22.  [WorksOnNthAttempt(n)] under a decorator without waits: when every
    error it makes is retryable and [1 <= n <= max_retries], the decorated
    call returns [(s, n)] after exactly [n] calls of the method. *)
Theorem works_on_nth_attempt_returns (self : RetryOnException.t NoWait)
    (n : Z) (error_gen : Z -> exc) (s : string) (fuel : nat) :
  1 <= n <= RetryOnException.max_retries self ->
  (forall j : Z, RetryOnException.retryable self (error_gen j)) ->
  (Z.to_nat n <= fuel)%nat ->
  exists res : RetryOnException.result NoWait Z (string * Z),
    RetryOnException.wrapped (works_on_nth_attempt n error_gen s) self 1 fuel
    = Some res
    /\ RetryOnException.outcome (RetryOnException.how res) = Returns (s, n)
    /\ RetryOnException.calls (RetryOnException.events res) = Z.to_nat n
    /\ RetryOnException.final_world res = n.
Proof.
  intros Hn Hret Hfuel.
  set (k := Z.to_nat (n - 1)).
  assert (Hk : Z.to_nat n = S k) by (unfold k; lia).
  set (func := works_on_nth_attempt n error_gen s).
  set (es := map (fun j : nat => error_gen (1 + Z.of_nat j)) (seq 0 k)).
  assert (Hlen : List.length es = k).
  { unfold es. now rewrite length_map, length_seq. }
  destruct (works_on_nth_attempt_failures n error_gen s k 1) as [Hat Hst];
    [right; unfold k; lia|].
  assert (Hlast : func (1 + Z.of_nat k) = (Returns (s, n), n)).
  { unfold func, works_on_nth_attempt.
    replace (1 + Z.of_nat k) with n by (unfold k; lia).
    rewrite Z.eqb_refl. reflexivity. }
  unfold RetryOnException.wrapped.
  assert (Hrun : RetryOnException.iterate func self k
                   (RetryOnException.start self 1)
                 = inl (RetryOnException.retried func
                          (RetryOnException.start self 1) k
                          (repeat (PyInt 0) k) es)).
  { apply retry_prefix.
    - exact Hat.
    - apply Forall_forall. intros e He. apply in_map_iff in He as (j & <- & _).
      apply Hret.
    - apply NoWait_start_draws.
    - apply NoWait_repeat_sleepable.
    - intros j Hj.
      change (RetryOnException.i
                (RetryOnException.start (R := string * Z) self 1)) with 0.
      unfold k in Hj. lia. }
  assert (Hstep : exists o : unit,
             RetryOnException.iterate func self (S k)
                    (RetryOnException.start self 1)
                  = inr (RetryOnException.Build_result NoWait Z (string * Z)
                           (RetryOnException.Returned (s, n)) o n
                           (RetryOnException.retry_events (repeat (PyInt 0) k) es
                            ++ [RetryOnException.Draw (Yield (PyInt 0));
                                RetryOnException.Attempt (Returns (s, n))]))).
  { rewrite (iterate_snoc NoWait Z (string * Z) func self k _ _ Hrun).
    unfold RetryOnException.iteration.
    cbn [RetryOnException.retried RetryOnException.gen RetryOnException.strategy
         RetryOnException.world RetryOnException.trace RetryOnException.i].
    change (RetryOnException.world (RetryOnException.start self 1)) with 1.
    fold func in Hst. rewrite Hst, Hlast.
    cbn [next NoWait]. eexists. reflexivity. }
  destruct Hstep as [o Hstep].
  rewrite (iterate_more NoWait Z (string * Z) func self (S k) fuel _ _ Hstep)
    by lia.
  eexists; split; [reflexivity|].
  cbn [RetryOnException.how RetryOnException.events RetryOnException.outcome
       RetryOnException.final_world].
  repeat split.
  rewrite calls_app, calls_retry_events
    by (rewrite repeat_length; symmetry; exact Hlen).
  rewrite Hlen, Hk. unfold RetryOnException.calls; cbn. lia.
Qed.

Lemma works_on_nth_attempt_returns_witness :
  exists res : RetryOnException.result NoWait Z (string * Z),
    RetryOnException.wrapped (works_on_nth_attempt 5 odd_even_error "amp")
      test_policy 1 5 = Some res
    /\ RetryOnException.outcome (RetryOnException.how res)
       = Returns ("amp"%string, 5)
    /\ RetryOnException.calls (RetryOnException.events res) = 5%nat
    /\ RetryOnException.final_world res = 5.
Proof.
  apply (works_on_nth_attempt_returns test_policy 5 odd_even_error "amp" 5).
  - cbn. lia.
  - intros j. unfold odd_even_error. destruct (j mod 2 =? 0); reflexivity.
  - cbn. lia.
Defined.

(** X23.  [WorksOnNthAttempt(n)] with [n] beyond the budget: the decorated
    call makes [max_retries] calls and raises the error made from that count,
    [error_gen(max_retries)], leaving [self.attempts] at [max_retries + 1]. *)
Theorem works_on_nth_attempt_gives_up (self : RetryOnException.t NoWait)
    (n : Z) (error_gen : Z -> exc) (s : string) (fuel : nat) :
  1 <= RetryOnException.max_retries self < n ->
  (forall j : Z, RetryOnException.retryable self (error_gen j)) ->
  (Z.to_nat (RetryOnException.max_retries self) <= fuel)%nat ->
  exists res : RetryOnException.result NoWait Z (string * Z),
    RetryOnException.wrapped (works_on_nth_attempt n error_gen s) self 1 fuel
    = Some res
    /\ RetryOnException.outcome (RetryOnException.how res)
       = Raises (error_gen (RetryOnException.max_retries self))
    /\ RetryOnException.calls (RetryOnException.events res)
       = Z.to_nat (RetryOnException.max_retries self)
    /\ RetryOnException.final_world res = RetryOnException.max_retries self + 1.
Proof.
  intros Hn Hret Hfuel.
  set (m := RetryOnException.max_retries self) in *.
  set (k := Z.to_nat (m - 1)).
  assert (Hk : Z.to_nat m = S k) by (unfold k; lia).
  set (func := works_on_nth_attempt n error_gen s).
  set (es := map (fun j : nat => error_gen (1 + Z.of_nat j)) (seq 0 k)).
  assert (Hlen : List.length es = k).
  { unfold es. now rewrite length_map, length_seq. }
  destruct (works_on_nth_attempt_failures n error_gen s k 1) as [Hat Hst];
    [right; unfold k; lia|].
  assert (Hlast : func (1 + Z.of_nat k) = (Raises (error_gen m), m + 1)).
  { unfold func, works_on_nth_attempt.
    replace (1 + Z.of_nat k) with m by (unfold k; lia).
    destruct (m =? n) eqn:E; [apply Z.eqb_eq in E; lia|].
    rewrite Z.add_simpl_r. reflexivity. }
  unfold RetryOnException.wrapped.
  assert (Hrun : RetryOnException.iterate func self k
                   (RetryOnException.start self 1)
                 = inl (RetryOnException.retried func
                          (RetryOnException.start self 1) k
                          (repeat (PyInt 0) k) es)).
  { apply retry_prefix.
    - exact Hat.
    - apply Forall_forall. intros e He. apply in_map_iff in He as (j & <- & _).
      apply Hret.
    - apply NoWait_start_draws.
    - apply NoWait_repeat_sleepable.
    - intros j Hj.
      change (RetryOnException.i
                (RetryOnException.start (R := string * Z) self 1)) with 0.
      fold m. unfold k in Hj. lia. }
  assert (Hstep : exists o : unit,
             RetryOnException.iterate func self (S k)
                    (RetryOnException.start self 1)
                  = inr (RetryOnException.Build_result NoWait Z (string * Z)
                           (RetryOnException.Reraised (error_gen m)) o (m + 1)
                           (RetryOnException.retry_events (repeat (PyInt 0) k) es
                            ++ [RetryOnException.Draw (Yield (PyInt 0));
                                RetryOnException.Attempt
                                  (Raises (error_gen m))]))).
  { rewrite (iterate_snoc NoWait Z (string * Z) func self k _ _ Hrun).
    unfold RetryOnException.iteration.
    cbn [RetryOnException.retried RetryOnException.gen RetryOnException.strategy
         RetryOnException.world RetryOnException.trace RetryOnException.i].
    change (RetryOnException.world (RetryOnException.start self 1)) with 1.
    change (RetryOnException.i
              (RetryOnException.start (R := string * Z) self 1)) with 0.
    fold func in Hst. rewrite Hst, Hlast.
    cbn [next NoWait].
    pose proof (Hret m) as Hm. unfold RetryOnException.retryable in Hm.
    rewrite Hm. fold m.
    replace (0 + Z.of_nat k + 1 =? m) with true
      by (symmetry; apply Z.eqb_eq; unfold k; lia).
    eexists. reflexivity. }
  destruct Hstep as [o Hstep].
  rewrite (iterate_more NoWait Z (string * Z) func self (S k) fuel _ _ Hstep)
    by lia.
  eexists; split; [reflexivity|].
  cbn [RetryOnException.how RetryOnException.events RetryOnException.outcome
       RetryOnException.final_world].
  repeat split.
  rewrite calls_app, calls_retry_events
    by (rewrite repeat_length; symmetry; exact Hlen).
  rewrite Hlen, Hk. unfold RetryOnException.calls; cbn. lia.
Qed.

Lemma works_on_nth_attempt_gives_up_witness :
  exists res : RetryOnException.result NoWait Z (string * Z),
    RetryOnException.wrapped (works_on_nth_attempt 10 value_error "fizzbuzz")
      test_policy 1 5 = Some res
    /\ RetryOnException.outcome (RetryOnException.how res)
       = Raises {| exc_type := ValueError; exc_args := "Failed 5 time[s]" |}
    /\ RetryOnException.calls (RetryOnException.events res) = 5%nat
    /\ RetryOnException.final_world res = 6.
Proof.
  apply (works_on_nth_attempt_gives_up test_policy 10 value_error "fizzbuzz" 5).
  - cbn. lia.
  - intros j. reflexivity.
  - cbn. lia.
Defined.

(** ** Waits that cannot be slept *)

(** A wait beyond the clock: the first retried attempt ends the call with the
    [OverflowError] of [time.sleep], after one call of the operation. *)
Example wait_beyond_the_clock :
  option_map
    (fun res => (RetryOnException.how res,
                 RetryOnException.calls (RetryOnException.events res),
                 RetryOnException.sleeps (RetryOnException.events res)))
    (RetryOnException.wrapped (always_raises (value_error 1))
       (RetryOnException.init ExponentialBackoff.class 5 None
          (ExponentialBackoff.init (PyInt (10 ^ 10)) (PyInt 0) (PyInt (10 ^ 11))))
       tt 5)
  = Some (RetryOnException.SleepFailed
            {| exc_type := OverflowError;
               exc_args := "timestamp too large to convert to C _PyTime_t" |},
          1%nat, []).
Proof. now vm_compute. Qed.

(** An int wait too large for a float: the f-string of the debug line raises
    before [time.sleep] is reached, whatever the sign of the wait. *)
Example wait_beyond_the_floats :
  map (fun first_wait =>
         option_map
           (fun res =>
              (exc_type
                 match RetryOnException.outcome (RetryOnException.how res) with
                 | Raises e => e
                 | Returns _ => value_error 0
                 end,
               RetryOnException.from_operation (RetryOnException.how res),
               RetryOnException.calls (RetryOnException.events res)))
           (RetryOnException.wrapped (always_raises (value_error 1))
              (RetryOnException.init FromList 5 None [first_wait]) tt 5))
    [PyInt (10 ^ 400); PyInt (- 10 ^ 400)]
  = [Some (OverflowError, false, 1%nat); Some (OverflowError, false, 1%nat)].
Proof. now vm_compute. Qed.

(** The largest lengths that are slept, and the first that are not. *)
Example clock_boundaries :
  map time_sleep
    [PyInt 9223372036; PyFloat (9223372036 # 1); PyInt 0; PyFloat (1 # 10)]
  = [inr tt; inr tt; inr tt; inr tt]
  /\ map (fun w => match time_sleep w with
                   | inl e => Some (exc_type e)
                   | inr _ => None
                   end)
       [PyInt 9223372037; PyFloat (10000000000 # 1); PyInt (-1);
        PyInt (-9223372037)]
     = [Some OverflowError; Some OverflowError; Some ValueError;
        Some OverflowError].
Proof. split; now vm_compute. Qed.
